(** * suika: the tool manager of the editor core

    A shallow embedding of [packages/core/src/tools/tool_manager.ts]
    (class [ToolManager]) together with the properties its specification
    states about it.

    The class is stateful and talks to collaborators of the host editor
    (DOM listeners, the keybinding manager, the event emitter, the canvas
    dragger, the cursor manager, the tools themselves).  The embedding
    threads one [World] through every method:

    - [this]    the private fields of the [ToolManager] object;
    - [scope]   the three [let] variables of [bindEvent] that its handlers
                close over;
    - [editor]  what the collaborators remember (registered listeners,
                registered key bindings, pending [setTimeout] callbacks)
                and the trace of every call that leaves the class.

    Calls into a tool ([onStart], [onActive], ...) are recorded in the
    trace; a tool is taken not to call back into the manager and not to
    throw from its callbacks.  A JavaScript [number] is a binary64 float:
    pointer coordinates and the [dragBlockStep] setting are values of
    [float], and the arithmetic on them is that of [PrimFloat].  [on],
    [off] and [getCurrPoint] only forward to a collaborator and are left
    out. *)

From stdpp Require Import base strings gmap list.
From Stdlib Require Import ZArith Lia Floats QArith Qabs.

Open Scope string_scope.
Open Scope list_scope.
Open Scope Z_scope.

(* ================================================================== *)
(** ** Data *)

Module IPoint.
Record t := mk { x : float; y : float }.
End IPoint.
Abbreviation IPoint := IPoint.t.

(** [e.target], compared with [editor.canvasElement] by [handleMove]. *)
Inductive EventTarget := CanvasElement | OtherElement.

Record PointerEvent := {
  button  : Z;
  clientX : float;
  clientY : float;
  target  : EventTarget;
}.

(** A tool class, as [IToolClassConstructor] sees it: the two static
    members read by [registerToolCtor], and what an instance built by
    [new ctor(editor)] carries (the [type] and [cursor] members of [ITool]
    and which of the optional callbacks it defines). *)
Record IToolClassConstructor := {
  static_type   : string;
  static_hotkey : string;
  instance_type   : string;
  instance_cursor : string;
  has_onCommandChange      : bool;
  has_onSpaceToggle        : bool;
  has_onAltToggle          : bool;
  has_onViewportXOrYChange : bool;
}.

(** A tool object: its identity (the allocation number of the [new] that
    built it) and its class. *)
Record ITool := {
  ident : nat;
  class : IToolClassConstructor;
}.

Definition type (t : ITool) : string := instance_type (class t).
Definition cursor (t : ITool) : string := instance_cursor (class t).

(** The two events of [interface Events]. *)
Inductive Events :=
| switchTool (type : string)
| changeEnableTools (toolTypes : list string).

(** Messages written to the console. *)
Inductive ConsoleMsg :=
| warn_had_exit (type : string)          (* tool "<type>" had exit, replace it! *)
| log_same_hotkey (hotkey : string)      (* register same hotkey: "<hotkey>" *)
| warn_not_enable (toolName : string).   (* target tool "<toolName>" is not enable *)

(** The three [throw new Error(...)] of the class. *)
Inductive Error :=
| no_active_tool                         (* 'there is no active tool', handleDown *)
| tool_not_set                           (* handleMove and handleUp *)
| not_registered (toolName : string).    (* tool "<toolName>" is not registered *)

(** Every call that leaves the class, in the order it is made. *)
Inductive Call :=
| console (m : ConsoleMsg)
| emit (ev : Events)
| new_tool (t : ITool)
| onActive (t : ITool)
| onInactive (t : ITool)
| setCursor (c : string)
| onStart (t : ITool) (e : PointerEvent)
| onDrag (t : ITool) (e : PointerEvent)
| onEnd (t : ITool) (e : PointerEvent) (isDragging : bool)
| afterEnd (t : ITool) (e : PointerEvent)
| onMoveExcludeDrag (t : ITool) (e : PointerEvent) (isOutsideCanvas : bool)
| onCommandChange (t : ITool)
| onSpaceToggle (t : ITool) (isSpacePressing : bool)
| onAltToggle (t : ITool) (isSpacePressing : bool)
| onViewportXOrYChange (t : ITool) (x y : float)
| disableDragBySpace
| enableDragBySpace
| raised (err : Error).

(** The seven listener registrations made by [bindEvent]. *)
Inductive Listener :=
| canvas_pointerdown
| window_pointermove
| window_pointerup
| commandManager_change
| hostEventManager_spaceToggle
| hostEventManager_altToggle
| viewportManager_xOrYChange.

Definition Listener_eqb (a b : Listener) : bool :=
  match a, b with
  | canvas_pointerdown, canvas_pointerdown
  | window_pointermove, window_pointermove
  | window_pointerup, window_pointerup
  | commandManager_change, commandManager_change
  | hostEventManager_spaceToggle, hostEventManager_spaceToggle
  | hostEventManager_altToggle, hostEventManager_altToggle
  | viewportManager_xOrYChange, viewportManager_xOrYChange => true
  | _, _ => false
  end.

(** The key code of a tool's binding: the string
    [`Key${hotkey.toUpperCase()}`] for the class's hotkey.  What the
    built-in [toUpperCase] makes of the hotkey is not evaluated: equal
    hotkeys give equal key codes, and nothing below tells two key codes
    apart. *)
Inductive KeyCode := Key_toUpperCase (hotkey : string).

(** A key binding handed to [keybindingManager.register].  Its [when] and
    [action] members are closures over [this] and the local [type]; the
    record keeps the captured [type], and [binding_when] and
    [binding_action] below are their bodies. *)
Record KeyBinding := {
  keyCode    : KeyCode;
  actionName : string;
  captured_type : string;
}.

(** [this._unbindEvent]: the closure returned by [bindEvent], or [noop]. *)
Inductive Unbinder := bindEvent_teardown | noop.

(** The private fields of [ToolManager]. *)
Record ToolManager := {
  toolCtorMap       : gmap string IToolClassConstructor;
  hotkeySet         : gset string;
  currentTool       : option ITool;
  enableSwitchTool  : bool;
  keyBindingToken   : list nat;
  _isDragging       : bool;
  enableToolTypes   : list string;
  (** [None] is the initial [{ x: Infinity, y: Infinity }]. *)
  currViewportPoint : option IPoint;
  _unbindEvent      : Unbinder;
}.

(** The [let] variables of [bindEvent]. *)
Record BindEventScope := {
  isPressing         : bool;
  startPos           : IPoint;
  startWithLeftMouse : bool;
}.

(** What the collaborators hold. *)
Record Editor := {
  listeners   : list Listener;
  keybindings : gmap nat KeyBinding;
  next_token  : nat;
  (** pending [setTimeout] callbacks of [handleDown], oldest first; each
      has captured its event. *)
  timers      : list PointerEvent;
  (** number of tool objects built so far *)
  allocated   : nat;
  trace       : list Call;
}.

Record World := {
  this   : ToolManager;
  scope  : BindEventScope;
  editor : Editor;
}.

(** What the collaborators answer while one handler runs:
    [textEditor.isEditing()], [hostEventManager.isSpacePressing],
    [setting.get('dragBlockStep')] and [getCursorXY(e)]. *)
Record Readings := {
  isEditing       : bool;
  isSpacePressing : bool;
  dragBlockStep   : float;
  getCursorXY     : IPoint;
}.

(* ------------------------------------------------------------------ *)
(** *** Field updates *)

Definition with_this (f : ToolManager -> ToolManager) (w : World) : World :=
  {| this := f (this w); scope := scope w; editor := editor w |}.
Definition with_scope (f : BindEventScope -> BindEventScope) (w : World) : World :=
  {| this := this w; scope := f (scope w); editor := editor w |}.
Definition with_editor (f : Editor -> Editor) (w : World) : World :=
  {| this := this w; scope := scope w; editor := f (editor w) |}.

Definition upd_toolCtorMap v (m : ToolManager) :=
  {| toolCtorMap := v; hotkeySet := hotkeySet m; currentTool := currentTool m;
     enableSwitchTool := enableSwitchTool m; keyBindingToken := keyBindingToken m;
     _isDragging := _isDragging m; enableToolTypes := enableToolTypes m;
     currViewportPoint := currViewportPoint m; _unbindEvent := _unbindEvent m |}.
Definition upd_hotkeySet v (m : ToolManager) :=
  {| toolCtorMap := toolCtorMap m; hotkeySet := v; currentTool := currentTool m;
     enableSwitchTool := enableSwitchTool m; keyBindingToken := keyBindingToken m;
     _isDragging := _isDragging m; enableToolTypes := enableToolTypes m;
     currViewportPoint := currViewportPoint m; _unbindEvent := _unbindEvent m |}.
Definition upd_currentTool v (m : ToolManager) :=
  {| toolCtorMap := toolCtorMap m; hotkeySet := hotkeySet m; currentTool := v;
     enableSwitchTool := enableSwitchTool m; keyBindingToken := keyBindingToken m;
     _isDragging := _isDragging m; enableToolTypes := enableToolTypes m;
     currViewportPoint := currViewportPoint m; _unbindEvent := _unbindEvent m |}.
Definition upd_enableSwitchTool v (m : ToolManager) :=
  {| toolCtorMap := toolCtorMap m; hotkeySet := hotkeySet m; currentTool := currentTool m;
     enableSwitchTool := v; keyBindingToken := keyBindingToken m;
     _isDragging := _isDragging m; enableToolTypes := enableToolTypes m;
     currViewportPoint := currViewportPoint m; _unbindEvent := _unbindEvent m |}.
Definition upd_keyBindingToken v (m : ToolManager) :=
  {| toolCtorMap := toolCtorMap m; hotkeySet := hotkeySet m; currentTool := currentTool m;
     enableSwitchTool := enableSwitchTool m; keyBindingToken := v;
     _isDragging := _isDragging m; enableToolTypes := enableToolTypes m;
     currViewportPoint := currViewportPoint m; _unbindEvent := _unbindEvent m |}.
Definition upd_isDragging v (m : ToolManager) :=
  {| toolCtorMap := toolCtorMap m; hotkeySet := hotkeySet m; currentTool := currentTool m;
     enableSwitchTool := enableSwitchTool m; keyBindingToken := keyBindingToken m;
     _isDragging := v; enableToolTypes := enableToolTypes m;
     currViewportPoint := currViewportPoint m; _unbindEvent := _unbindEvent m |}.
Definition upd_enableToolTypes v (m : ToolManager) :=
  {| toolCtorMap := toolCtorMap m; hotkeySet := hotkeySet m; currentTool := currentTool m;
     enableSwitchTool := enableSwitchTool m; keyBindingToken := keyBindingToken m;
     _isDragging := _isDragging m; enableToolTypes := v;
     currViewportPoint := currViewportPoint m; _unbindEvent := _unbindEvent m |}.
Definition upd_currViewportPoint v (m : ToolManager) :=
  {| toolCtorMap := toolCtorMap m; hotkeySet := hotkeySet m; currentTool := currentTool m;
     enableSwitchTool := enableSwitchTool m; keyBindingToken := keyBindingToken m;
     _isDragging := _isDragging m; enableToolTypes := enableToolTypes m;
     currViewportPoint := v; _unbindEvent := _unbindEvent m |}.
Definition upd_unbindEvent v (m : ToolManager) :=
  {| toolCtorMap := toolCtorMap m; hotkeySet := hotkeySet m; currentTool := currentTool m;
     enableSwitchTool := enableSwitchTool m; keyBindingToken := keyBindingToken m;
     _isDragging := _isDragging m; enableToolTypes := enableToolTypes m;
     currViewportPoint := currViewportPoint m; _unbindEvent := v |}.

Definition upd_isPressing v (s : BindEventScope) :=
  {| isPressing := v; startPos := startPos s;
     startWithLeftMouse := startWithLeftMouse s |}.
Definition upd_startPos v (s : BindEventScope) :=
  {| isPressing := isPressing s; startPos := v;
     startWithLeftMouse := startWithLeftMouse s |}.
Definition upd_startWithLeftMouse v (s : BindEventScope) :=
  {| isPressing := isPressing s; startPos := startPos s;
     startWithLeftMouse := v |}.

Definition upd_listeners v (ed : Editor) :=
  {| listeners := v; keybindings := keybindings ed; next_token := next_token ed;
     timers := timers ed; allocated := allocated ed; trace := trace ed |}.
Definition upd_keybindings v (ed : Editor) :=
  {| listeners := listeners ed; keybindings := v; next_token := next_token ed;
     timers := timers ed; allocated := allocated ed; trace := trace ed |}.
Definition upd_next_token v (ed : Editor) :=
  {| listeners := listeners ed; keybindings := keybindings ed; next_token := v;
     timers := timers ed; allocated := allocated ed; trace := trace ed |}.
Definition upd_timers v (ed : Editor) :=
  {| listeners := listeners ed; keybindings := keybindings ed;
     next_token := next_token ed;
     timers := v; allocated := allocated ed; trace := trace ed |}.
Definition upd_allocated v (ed : Editor) :=
  {| listeners := listeners ed; keybindings := keybindings ed;
     next_token := next_token ed;
     timers := timers ed; allocated := v; trace := trace ed |}.
Definition upd_trace v (ed : Editor) :=
  {| listeners := listeners ed; keybindings := keybindings ed;
     next_token := next_token ed;
     timers := timers ed; allocated := allocated ed; trace := v |}.

(* ================================================================== *)
(** ** Statements that may throw

    A method body is a function from the world to a completion and the
    world it leaves behind; what was assigned before a [throw] stays
    assigned. *)

Inductive Completion (A : Type) :=
| Normal (a : A)
| Throw (err : Error).
Arguments Normal {A} a.
Arguments Throw {A} err.

Definition M (A : Type) : Type := World -> Completion A * World.

Definition ret {A} (a : A) : M A := fun w => (Normal a, w).
Definition bind {A B} (m : M A) (k : A -> M B) : M B :=
  fun w => match m w with
           | (Normal a, w') => k a w'
           | (Throw err, w') => (Throw err, w')
           end.
Definition throw {A} (err : Error) : M A := fun w => (Throw err, w).
Definition get : M World := fun w => (Normal w, w).
Definition modify (f : World -> World) : M unit := fun w => (Normal tt, f w).

Notation "'let!' x ':=' m 'in' k" := (bind m (fun x => k))
  (at level 10, x name, m at level 100, k at level 200).
Notation "m ';;' k" := (bind m (fun _ => k))
  (at level 100, k at level 200, right associativity).

(** [return;] in the middle of a method: the rest is skipped. *)
Definition when_ (b : bool) (m : M unit) : M unit := if b then m else ret tt.

Definition call (c : Call) : M unit :=
  modify (with_editor (fun ed => upd_trace (trace ed ++ [c]) ed)).

Fixpoint for_each {A} (l : list A) (f : A -> M unit) : M unit :=
  match l with
  | [] => ret tt
  | a :: l' => f a ;; for_each l' f
  end.

(** [Array.prototype.includes] on an array of strings. *)
Fixpoint includes (l : list string) (s : string) : bool :=
  match l with
  | [] => false
  | s' :: l' => String.eqb s' s || includes l' s
  end.


(* ================================================================== *)
(** ** The collaborators *)

(** [addEventListener] / [on]: one more registration. *)
Definition addListener (l : Listener) : M unit :=
  modify (with_editor (fun ed => upd_listeners (listeners ed ++ [l]) ed)).

(** [removeEventListener] / [off]: the registration of that handler is
    gone. *)
Definition removeListener (l : Listener) : M unit :=
  modify (with_editor (fun ed =>
    upd_listeners (filter (fun l' => Listener_eqb l l' = false) (listeners ed)) ed)).

Definition listening (l : Listener) (w : World) : bool :=
  existsb (Listener_eqb l) (listeners (editor w)).

(** Modelled from the spec: the keybinding manager is not part of this
    file.  Its interface is [register({key, actionName, when, action}) ->
    token] and [unregister(token)]; a binding is revocable by its token.
    [register] stores the binding under a token it has not given out
    before.  Which token that is, is the manager's business: the model
    numbers them, and [next_token] is no more than the name of the token
    the next [register] returns. *)
Definition keybindingManager_register (b : KeyBinding) : M nat :=
  let! w := get in
  let token := next_token (editor w) in
  modify (with_editor (fun ed =>
    upd_next_token (S token) (upd_keybindings (<[token := b]> (keybindings ed)) ed)));;
  ret token.

(** Modelled from the spec: [unregister(token)] of the keybinding manager
    revokes the binding registered under [token]. *)
Definition keybindingManager_unregister (token : nat) : M unit :=
  modify (with_editor (fun ed => upd_keybindings (delete token (keybindings ed)) ed)).

(** [new currentToolCtor(this.editor)]: a new object of that class. *)
Definition new (ctor : IToolClassConstructor) : M ITool :=
  let! w := get in
  let t := {| ident := allocated (editor w); class := ctor |} in
  modify (with_editor (fun ed => upd_allocated (S (allocated ed)) ed));;
  call (new_tool t);;
  ret t.

(* ================================================================== *)
(** ** class ToolManager *)

Definition assign_this (f : ToolManager -> ToolManager) : M unit :=
  modify (with_this f).
Definition assign_scope (f : BindEventScope -> BindEventScope) : M unit :=
  modify (with_scope f).

(** [unbindHotkey()] *)
Definition unbindHotkey : M unit :=
  let! w := get in
  for_each (keyBindingToken (this w)) keybindingManager_unregister;;
  assign_this (upd_keyBindingToken []).

(** [setEnableHotKeyTools(toolTypes)] *)
Definition setEnableHotKeyTools (toolTypes : list string) : M unit :=
  assign_this (upd_enableToolTypes toolTypes);;
  call (emit (changeEnableTools toolTypes)).

(** [getEnableTools()] *)
Definition getEnableTools (w : World) : list string :=
  enableToolTypes (this w).

(** [getActiveToolName()]: [this.currentTool?.type]; [None] is
    [undefined]. *)
Definition getActiveToolName (w : World) : option string :=
  type <$> currentTool (this w).

(** [setCursorWhenActive()] *)
Definition setCursorWhenActive : M unit :=
  let! w := get in
  match currentTool (this w) with
  | Some t => call (setCursor (cursor t))
  | None => ret tt
  end.

(** [getActiveToolName() === toolName] *)
Definition is_active (w : World) (toolName : string) : bool :=
  match getActiveToolName w with
  | Some n => String.eqb n toolName
  | None => false
  end.

(** [setActiveTool(toolName)] *)
Definition setActiveTool (toolName : string) : M unit :=
  let! w := get in
  if negb (enableSwitchTool (this w)) || is_active w toolName then
    ret tt
  else if negb (includes (enableToolTypes (this w)) toolName) then
    call (console (warn_not_enable toolName))
  else
    let prevTool := currentTool (this w) in
    match toolCtorMap (this w) !! toolName with
    | None => throw (not_registered toolName)
    | Some currentToolCtor =>
        let! currentTool := new currentToolCtor in
        assign_this (upd_currentTool (Some currentTool));;
        match prevTool with
        | Some prev => call (onInactive prev)
        | None => ret tt
        end;;
        setCursorWhenActive;;
        call (onActive currentTool);;
        call (emit (switchTool (type currentTool)))
    end.

(** The [when] closure of a tool's key binding:
    [() => this.enableToolTypes.includes(type)]. *)
Definition binding_when (b : KeyBinding) (w : World) : bool :=
  includes (enableToolTypes (this w)) (captured_type b).

(** The [action] closure of a tool's key binding:
    [() => { this.setActiveTool(type) }]. *)
Definition binding_action (b : KeyBinding) : M unit :=
  setActiveTool (captured_type b).

(** [registerToolCtor(toolCtor)] *)
Definition registerToolCtor (toolCtor : IToolClassConstructor) : M unit :=
  let type := static_type toolCtor in
  let hotkey := static_hotkey toolCtor in
  let! w := get in
  when_ (bool_decide (is_Some (toolCtorMap (this w) !! type)))
        (call (console (warn_had_exit type)));;
  assign_this (fun m => upd_toolCtorMap (<[type := toolCtor]> (toolCtorMap m)) m);;
  let! w := get in
  when_ (bool_decide (hotkey ∈ hotkeySet (this w)))
        (call (console (log_same_hotkey hotkey)));;
  assign_this (fun m => upd_hotkeySet ({[hotkey]} ∪ hotkeySet m) m);;
  let keyCode := Key_toUpperCase (static_hotkey toolCtor) in
  let! token := keybindingManager_register
                  {| keyCode := keyCode; actionName := type; captured_type := type |} in
  assign_this (fun m => upd_keyBindingToken (keyBindingToken m ++ [token]) m).

(** [handleDown]: the listener only schedules its body. *)
Definition handleDown (e : PointerEvent) : M unit :=
  modify (with_editor (fun ed => upd_timers (timers ed ++ [e]) ed)).

(** The body [handleDown] hands to [setTimeout]. *)
Definition handleDown_deferred (r : Readings) (e : PointerEvent) : M unit :=
  assign_scope (upd_isPressing false);;
  assign_this (upd_isDragging false);;
  assign_scope (upd_startWithLeftMouse false);;
  if negb (button e =? 0) || isEditing r || isSpacePressing r then
    ret tt
  else
    assign_scope (upd_isPressing true);;
    assign_scope (upd_startWithLeftMouse true);;
    let! w := get in
    match currentTool (this w) with
    | None => throw no_active_tool
    | Some t =>
        assign_scope (upd_startPos (IPoint.mk (clientX e) (clientY e)));;
        call (onStart t e)
    end.

(** [a > b] on numbers: false when either is [NaN]. *)
Definition gt (a b : float) : bool := PrimFloat.ltb b a.

(** [this.editor.canvasElement !== e.target] *)
Definition canvasElement_is_not (tg : EventTarget) : bool :=
  match tg with CanvasElement => false | OtherElement => true end.

(** [handleMove] *)
Definition handleMove (r : Readings) (e : PointerEvent) : M unit :=
  assign_this (upd_currViewportPoint (Some (getCursorXY r)));;
  let! w := get in
  match currentTool (this w) with
  | None => throw tool_not_set
  | Some t =>
      if isPressing (scope w) then
        if negb (startWithLeftMouse (scope w)) then
          ret tt
        else
          let dx := PrimFloat.sub (clientX e) (IPoint.x (startPos (scope w))) in
          let dy := PrimFloat.sub (clientY e) (IPoint.y (startPos (scope w))) in
          let dragBlockStep := dragBlockStep r in
          when_ (negb (_isDragging (this w)) &&
                 (gt (PrimFloat.abs dx) dragBlockStep
                  || gt (PrimFloat.abs dy) dragBlockStep))
                (assign_this (upd_isDragging true));;
          let! w := get in
          when_ (_isDragging (this w))
                (assign_this (upd_enableSwitchTool false);;
                 call disableDragBySpace;;
                 call (onDrag t e))
      else
        let isOutsideCanvas := canvasElement_is_not (target e) in
        call (onMoveExcludeDrag t e isOutsideCanvas)
  end.

(** [handleUp] *)
Definition handleUp (e : PointerEvent) : M unit :=
  assign_this (upd_enableSwitchTool true);;
  let! w := get in
  if negb (startWithLeftMouse (scope w)) then
    ret tt
  else
    match currentTool (this w) with
    | None => throw tool_not_set
    | Some t =>
        when_ (isPressing (scope w))
              (call enableDragBySpace;;
               assign_scope (upd_isPressing false);;
               call (onEnd t e (_isDragging (this w)));;
               call (afterEnd t e));;
        assign_this (upd_isDragging false)
    end.

(** [this.currentTool?.hook?.(...)] *)
Definition optional_call (has : IToolClassConstructor -> bool)
    (c : ITool -> Call) : M unit :=
  let! w := get in
  match currentTool (this w) with
  | Some t => when_ (has (class t)) (call (c t))
  | None => ret tt
  end.

Definition handleCommandChange : M unit :=
  optional_call has_onCommandChange onCommandChange.
Definition handleSpaceToggle (isSpacePressing : bool) : M unit :=
  optional_call has_onSpaceToggle (fun t => onSpaceToggle t isSpacePressing).
Definition handleAltToggle (isSpacePressing : bool) : M unit :=
  optional_call has_onAltToggle (fun t => onAltToggle t isSpacePressing).
Definition handleViewportXOrYChange (x y : float) : M unit :=
  optional_call has_onViewportXOrYChange (fun t => onViewportXOrYChange t x y).

(** [bindEvent()]; the closure it returns is [bindEvent_teardown]. *)
Definition bindEvent : M Unbinder :=
  assign_scope (fun _ => {| isPressing := false; startPos := IPoint.mk 0 0;
                            startWithLeftMouse := false |});;
  addListener canvas_pointerdown;;
  addListener window_pointermove;;
  addListener window_pointerup;;
  addListener commandManager_change;;
  addListener hostEventManager_spaceToggle;;
  addListener hostEventManager_altToggle;;
  addListener viewportManager_xOrYChange;;
  ret bindEvent_teardown.

(** Calling [this._unbindEvent()]. *)
Definition call_unbinder (u : Unbinder) : M unit :=
  match u with
  | bindEvent_teardown =>
      removeListener canvas_pointerdown;;
      removeListener window_pointermove;;
      removeListener window_pointerup;;
      removeListener commandManager_change;;
      removeListener hostEventManager_spaceToggle
  | noop => ret tt
  end.

(** [unbindEvent()] *)
Definition unbindEvent : M unit :=
  let! w := get in
  call_unbinder (_unbindEvent (this w));;
  assign_this (upd_unbindEvent noop);;
  unbindHotkey.

(** [destroy()] *)
Definition destroy : M unit :=
  let! w := get in
  match currentTool (this w) with
  | Some t => call (onInactive t)
  | None => ret tt
  end.

(** [isDragging()] *)
Definition isDragging (w : World) : bool := _isDragging (this w).

(** The eight tool classes the constructor imports. *)
Record ToolClasses := {
  SelectTool      : IToolClassConstructor;
  DrawRectTool    : IToolClassConstructor;
  DrawEllipseTool : IToolClassConstructor;
  DrawLineTool    : IToolClassConstructor;
  DrawTextTool    : IToolClassConstructor;
  DragCanvasTool  : IToolClassConstructor;
  PathSelectTool  : IToolClassConstructor;
  DrawPathTool    : IToolClassConstructor;
}.

(** [constructor(editor)] *)
Definition constructor (T : ToolClasses) : M unit :=
  registerToolCtor (SelectTool T);;
  registerToolCtor (DrawRectTool T);;
  registerToolCtor (DrawEllipseTool T);;
  registerToolCtor (DrawLineTool T);;
  registerToolCtor (DrawTextTool T);;
  registerToolCtor (DragCanvasTool T);;
  registerToolCtor (PathSelectTool T);;
  registerToolCtor (DrawPathTool T);;
  setEnableHotKeyTools
    [ static_type (SelectTool T); static_type (DrawRectTool T);
      static_type (DrawEllipseTool T); static_type (DrawPathTool T);
      static_type (DrawLineTool T); static_type (DrawTextTool T);
      static_type (DragCanvasTool T) ];;
  setActiveTool (static_type (SelectTool T));;
  let! u := bindEvent in
  assign_this (upd_unbindEvent u).

(** The field initialisers of the class. *)
Definition initial_fields : ToolManager :=
  {| toolCtorMap := ∅; hotkeySet := ∅; currentTool := None;
     enableSwitchTool := true; keyBindingToken := []; _isDragging := false;
     enableToolTypes := []; currViewportPoint := None; _unbindEvent := noop |}.

(** [new ToolManager(editor)]. *)
Definition new_ToolManager (T : ToolClasses) (ed : Editor) : Completion unit * World :=
  constructor T
    {| this := initial_fields;
       scope := {| isPressing := false; startPos := IPoint.mk 0 0;
                   startWithLeftMouse := false |};
       editor := ed |}.

(* ================================================================== *)
(** ** The event loop

    Everything that can happen to a constructed manager: an event of one
    of the seven sources [bindEvent] listens to, a due [setTimeout]
    callback, a key binding of the keybinding manager being triggered, or
    a call of a public method. *)

Inductive Input :=
| pointerdown (e : PointerEvent)
| timeout (r : Readings)
| pointermove (r : Readings) (e : PointerEvent)
| pointerup (e : PointerEvent)
| command_change
| space_toggle (isSpacePressing : bool)
| alt_toggle (isSpacePressing : bool)
| viewport_xOrYChange (x y : float)
| hotkey (token : nat)
| call_setActiveTool (toolName : string)
| call_setEnableHotKeyTools (toolTypes : list string)
| call_unbindEvent
| call_destroy.

(** An event reaches its handler only while the handler is registered. *)
Definition deliver (l : Listener) (handler : M unit) : M unit :=
  let! w := get in
  when_ (listening l w) handler.

(** The oldest pending [setTimeout] callback runs. *)
Definition run_timer (r : Readings) : M unit :=
  let! w := get in
  match timers (editor w) with
  | [] => ret tt
  | e :: rest =>
      modify (with_editor (upd_timers rest));;
      handleDown_deferred r e
  end.

(** Modelled from the spec: the keybinding manager's dispatch is not part
    of this file.  A binding's trigger predicate [when] is evaluated when
    the key is pressed, and its [action] runs if the predicate holds; a
    revoked binding does nothing. *)
Definition keybindingManager_trigger (token : nat) : M unit :=
  let! w := get in
  match keybindings (editor w) !! token with
  | Some b => when_ (binding_when b w) (binding_action b)
  | None => ret tt
  end.

Definition react (i : Input) : M unit :=
  match i with
  | pointerdown e => deliver canvas_pointerdown (handleDown e)
  | timeout r => run_timer r
  | pointermove r e => deliver window_pointermove (handleMove r e)
  | pointerup e => deliver window_pointerup (handleUp e)
  | command_change => deliver commandManager_change handleCommandChange
  | space_toggle b => deliver hostEventManager_spaceToggle (handleSpaceToggle b)
  | alt_toggle b => deliver hostEventManager_altToggle (handleAltToggle b)
  | viewport_xOrYChange x y =>
      deliver viewportManager_xOrYChange (handleViewportXOrYChange x y)
  | hotkey token => keybindingManager_trigger token
  | call_setActiveTool toolName => setActiveTool toolName
  | call_setEnableHotKeyTools toolTypes => setEnableHotKeyTools toolTypes
  | call_unbindEvent => unbindEvent
  | call_destroy => destroy
  end.

(** The world after a statement; an error that escapes it is recorded. *)
Definition exec (m : M unit) (w : World) : World :=
  match m w with
  | (Normal _, w') => w'
  | (Throw err, w') => with_editor (fun ed => upd_trace (trace ed ++ [raised err]) ed) w'
  end.

Definition step (w : World) (i : Input) : World := exec (react i) w.

Definition run (inputs : list Input) (w : World) : World :=
  fold_left step inputs w.

(** Whether a statement threw. *)
Definition throws {A} (m : M A) (w : World) : option Error :=
  match m w with
  | (Throw err, _) => Some err
  | (Normal _, _) => None
  end.

(* ================================================================== *)
(** ** Reading the trace *)

Definition the_trace (w : World) : list Call := trace (editor w).

(** The tool objects that have been activated and not deactivated since:
    [onActive] adds the object, [onInactive] removes it. *)
Definition activity (acc : list nat) (c : Call) : list nat :=
  match c with
  | onActive t => acc ++ [ident t]
  | onInactive t => filter (fun i => i ≠ ident t) acc
  | _ => acc
  end.

Definition active_tools (tr : list Call) : list nat := fold_left activity tr [].

(** At every moment of the trace at most one tool object is active. *)
Fixpoint single_active (acc : list nat) (tr : list Call) : bool :=
  (length acc <=? 1)%nat &&
  match tr with
  | [] => true
  | c :: tr' => single_active (activity acc c) tr'
  end.

(** The calls of a switch: nothing of this kind happens in a refused
    [setActiveTool]. *)
Definition is_switch_call (c : Call) : bool :=
  match c with
  | new_tool _ | onActive _ | onInactive _ | setCursor _
  | emit (switchTool _) => true
  | _ => false
  end.

(** The calls into a tool that belong to a press: [onStart], [onDrag],
    [onEnd], [afterEnd]. *)
Definition is_press_call (c : Call) : bool :=
  match c with
  | onStart _ _ | onDrag _ _ | onEnd _ _ _ | afterEnd _ _ => true
  | _ => false
  end.

(** A sample set of tool classes, with the types and hotkeys of the
    editor's tools. *)
Definition sample_class (ty hk : string) : IToolClassConstructor :=
  {| static_type := ty; static_hotkey := hk; instance_type := ty;
     instance_cursor := "default";
     has_onCommandChange := false; has_onSpaceToggle := false;
     has_onAltToggle := true; has_onViewportXOrYChange := true |}.

Definition sample_tools : ToolClasses :=
  {| SelectTool := sample_class "select" "v";
     DrawRectTool := sample_class "drawRect" "r";
     DrawEllipseTool := sample_class "drawEllipse" "o";
     DrawLineTool := sample_class "drawLine" "l";
     DrawTextTool := sample_class "drawText" "t";
     DragCanvasTool := sample_class "dragCanvas" "h";
     PathSelectTool := sample_class "pathSelect" "v";
     DrawPathTool := sample_class "pen" "p" |}.

Definition empty_editor : Editor :=
  {| listeners := []; keybindings := ∅; next_token := 0%nat; timers := [];
     allocated := 0%nat; trace := [] |}.

Definition sample_world : World := snd (new_ToolManager sample_tools empty_editor).

Definition quiet : Readings :=
  {| isEditing := false; isSpacePressing := false; dragBlockStep := 5;
     getCursorXY := IPoint.mk 0 0 |}.

Definition at_ (b : Z) (x y : float) : PointerEvent :=
  {| button := b; clientX := x; clientY := y; target := CanvasElement |}.

(** The same, outside the canvas. *)
Definition outside (b : Z) (x y : float) : PointerEvent :=
  {| button := b; clientX := x; clientY := y; target := OtherElement |}.

(** Text is being edited. *)
Definition editing : Readings :=
  {| isEditing := true; isSpacePressing := false; dragBlockStep := 5;
     getCursorXY := IPoint.mk 0 0 |}.

(** A step of 2^53. *)
Definition far : Readings :=
  {| isEditing := false; isSpacePressing := false; dragBlockStep := 9007199254740992;
     getCursorXY := IPoint.mk 0 0 |}.

(* ================================================================== *)
(** ** What one call of [setActiveTool] does *)

(** The four checks a call must pass to switch: the gate is open, the
    target is not the active tool, it is in the enabled set, it is
    registered. *)
Definition passes (toolName : string) (w : World) : bool :=
  enableSwitchTool (this w) && negb (is_active w toolName) &&
  includes (enableToolTypes (this w)) toolName &&
  bool_decide (is_Some (toolCtorMap (this w) !! toolName)).

(** The calls of a switch from [prev] to the new object [t], in order. *)
Definition switch_calls (prev : option ITool) (t : ITool) : list Call :=
  [new_tool t] ++
  match prev with Some p => [onInactive p] | None => [] end ++
  [setCursor (cursor t); onActive t; emit (switchTool (type t))].

(** The world a switch to an object of class [c] leaves. *)
Definition switched (c : IToolClassConstructor) (w : World) : World :=
  let t := {| ident := allocated (editor w); class := c |} in
  {| this := upd_currentTool (Some t) (this w);
     scope := scope w;
     editor := upd_trace (trace (editor w) ++ switch_calls (currentTool (this w)) t)
                 (upd_allocated (S (allocated (editor w))) (editor w)) |}.

(** The world after a console message. *)
Definition said (m : ConsoleMsg) (w : World) : World :=
  with_editor (fun ed => upd_trace (trace ed ++ [console m]) ed) w.

(* ================================================================== *)
(** ** Notions the properties are stated with *)

(** The calls made since the world [w0]. *)
Definition since (w0 w : World) : list Call :=
  drop (length (the_trace w0)) (the_trace w).

(** The trace and the [currentTool] field agree: at every moment of the
    trace at most one object was active, and the object active at its end
    is the one the field holds. *)
Definition consistent (w : World) : Prop :=
  single_active [] (the_trace w) = true /\
  active_tools (the_trace w) = option_list (ident <$> currentTool (this w)).

(** Every registered class builds tools whose [type] is the type it is
    registered under. *)
Definition coherent (w : World) : Prop :=
  forall n c, toolCtorMap (this w) !! n = Some c -> instance_type c = n.

(** The type of the tool a passing [setActiveTool(n)] builds in [w]. *)
Definition built_type (n : string) (w : World) : option string :=
  instance_type <$> toolCtorMap (this w) !! n.

Definition requested_type (n : string) (w : World) : option string := Some n.

(** Runs the calls [setActiveTool(n)] for [n] in [names] and remembers
    the type of the last one that passed the four checks; [acc] is the
    answer when none did. *)
Fixpoint last_activated (type_of : string -> World -> option string)
    (names : list string) (w : World) (acc : option string) : option string :=
  match names with
  | [] => acc
  | n :: rest =>
      last_activated type_of rest (step w (call_setActiveTool n))
        (if passes n w then type_of n w else acc)
  end.

(** The order in which the specification lists the calls of a switch:
    deactivate the previous tool, construct, update the cursor, activate,
    broadcast. *)
Definition spec_switch_calls (prev : option ITool) (t : ITool) : list Call :=
  match prev with Some p => [onInactive p] | None => [] end ++
  [new_tool t; setCursor (cursor t); onActive t; emit (switchTool (type t))].

(** Lifecycle pairing per tool object, as the specification states it:
    [onDrag] and [onEnd] go to an object that has received [onStart] and
    not yet its [onEnd]; [afterEnd] follows [onEnd]; an object is not
    deactivated between its [onStart] and its [afterEnd].  [started] are
    the objects between [onStart] and [onEnd], [ended] those between
    [onEnd] and [afterEnd]. *)
Fixpoint lifecycle_paired (started ended : list nat) (tr : list Call) : bool :=
  match tr with
  | [] => true
  | onStart t _ :: tr' =>
      bool_decide (ident t ∉ started ++ ended) &&
      lifecycle_paired (ident t :: started) ended tr'
  | onDrag t _ :: tr' =>
      bool_decide (ident t ∈ started) && lifecycle_paired started ended tr'
  | onEnd t _ _ :: tr' =>
      bool_decide (ident t ∈ started) &&
      lifecycle_paired (filter (fun i => i ≠ ident t) started) (ident t :: ended) tr'
  | afterEnd t _ :: tr' =>
      bool_decide (ident t ∈ ended) &&
      lifecycle_paired started (filter (fun i => i ≠ ident t) ended) tr'
  | onInactive t :: tr' =>
      bool_decide (ident t ∉ started ++ ended) && lifecycle_paired started ended tr'
  | _ :: tr' => lifecycle_paired started ended tr'
  end.

(** Equality of pointer events, coordinate by coordinate ([NaN] equals
    itself here: the test is on the value, not the [===] of numbers). *)
Definition PointerEvent_eqb (a b : PointerEvent) : bool :=
  (button a =? button b) &&
  PrimFloat.Leibniz.eqb (clientX a) (clientX b) &&
  PrimFloat.Leibniz.eqb (clientY a) (clientY b) &&
  match target a, target b with
  | CanvasElement, CanvasElement | OtherElement, OtherElement => true
  | _, _ => false
  end.

Definition IToolClassConstructor_eqb (a b : IToolClassConstructor) : bool :=
  String.eqb (static_type a) (static_type b) &&
  String.eqb (static_hotkey a) (static_hotkey b) &&
  String.eqb (instance_type a) (instance_type b) &&
  String.eqb (instance_cursor a) (instance_cursor b) &&
  Bool.eqb (has_onCommandChange a) (has_onCommandChange b) &&
  Bool.eqb (has_onSpaceToggle a) (has_onSpaceToggle b) &&
  Bool.eqb (has_onAltToggle a) (has_onAltToggle b) &&
  Bool.eqb (has_onViewportXOrYChange a) (has_onViewportXOrYChange b).

(** The same tool object: the same allocation, of the same class. *)
Definition ITool_eqb (a b : ITool) : bool :=
  Nat.eqb (ident a) (ident b) && IToolClassConstructor_eqb (class a) (class b).

Definition is_current (cur : option ITool) (t : ITool) : bool :=
  match cur with
  | Some t' => ITool_eqb t' t
  | None => false
  end.

(** What the code does guarantee of the pointer callbacks, whatever the
    inputs.  Where a press stands: none pending, one opened by an
    [onStart], or an [onEnd] just made on the tool [t] with the event [e]
    whose [afterEnd] is due. *)
Inductive Press := no_press | press_open | press_ending (t : ITool) (e : PointerEvent).

(** One call of the trace, read against the tool that is current ([cur],
    the tool built last) and the press:
    - [onStart], [onDrag] and [onEnd] go to the current tool;
    - [onDrag] and [onEnd] are made only while a press is open;
    - the call after an [onEnd] is the [afterEnd] of the same tool for the
      same event, and [afterEnd] is made nowhere else.
    [None]: the call breaks one of these. *)
Definition press_step (cur : option ITool) (st : Press) (c : Call)
    : option (option ITool * Press) :=
  match st, c with
  | press_ending t e, afterEnd t' e' =>
      if ITool_eqb t' t && PointerEvent_eqb e' e then Some (cur, no_press) else None
  | press_ending _ _, _ => None
  | _, new_tool t => Some (Some t, st)
  | _, onStart t _ => if is_current cur t then Some (cur, press_open) else None
  | press_open, onDrag t _ => if is_current cur t then Some (cur, press_open) else None
  | press_open, onEnd t e _ => if is_current cur t then Some (cur, press_ending t e) else None
  | _, onDrag _ _ => None
  | _, onEnd _ _ _ => None
  | _, afterEnd _ _ => None
  | _, _ => Some (cur, st)
  end.

Fixpoint press_check (cur : option ITool) (st : Press) (tr : list Call)
    : option (option ITool * Press) :=
  match tr with
  | [] => Some (cur, st)
  | c :: tr' =>
      match press_step cur st c with
      | Some (cur', st') => press_check cur' st' tr'
      | None => None
      end
  end.

(** No [afterEnd] is due. *)
Definition settled (st : Press) : bool :=
  match st with press_ending _ _ => false | _ => true end.

(** An input that, arriving in the world [w], neither starts nor ends a
    press and neither switches nor deactivates the tool: a pointer move, a
    pointer-down (its body is deferred), one of the four notifications, a
    new enabled set, a due timer while no pointer-down is pending, and a
    [setActiveTool] - called or triggered by a hotkey - that does not pass
    the four checks. *)
Definition quiet_at (i : Input) (w : World) : bool :=
  match i with
  | pointerdown _ | pointermove _ _ | command_change | space_toggle _
  | alt_toggle _ | viewport_xOrYChange _ _ | call_setEnableHotKeyTools _ => true
  | timeout _ => match timers (editor w) with [] => true | _ :: _ => false end
  | call_setActiveTool toolName => negb (passes toolName w)
  | hotkey token =>
      match keybindings (editor w) !! token with
      | Some b => negb (binding_when b w && passes (captured_type b) w)
      | None => true
      end
  | pointerup _ | call_unbindEvent | call_destroy => false
  end.

(** Every input of [mids] is quiet when it arrives. *)
Fixpoint undisturbed (mids : list Input) (w : World) : bool :=
  match mids with
  | [] => true
  | i :: rest => quiet_at i w && undisturbed rest (step w i)
  end.

(** What may be called between the [onStart] and the [onEnd] of a press
    of the tool [t] that nothing disturbs: no lifecycle call of any tool,
    no start or end, and drags only of [t]. *)
Definition within_press (t : ITool) (c : Call) : Prop :=
  match c with
  | onDrag t' _ => t' = t
  | onStart _ _ | onEnd _ _ _ | afterEnd _ _
  | onInactive _ | onActive _ | new_tool _ => False
  | _ => True
  end.

(** [handleDown]'s deferred body lets the press begin. *)
Definition accepted (r : Readings) (e : PointerEvent) : bool :=
  (button e =? 0) && negb (isEditing r) && negb (isSpacePressing r).

(** The displacement from [start], as [handleMove] computes it, exceeds
    the configured step on an axis. *)
Definition exceeds (r : Readings) (start : IPoint) (e : PointerEvent) : Prop :=
  gt (PrimFloat.abs (PrimFloat.sub (clientX e) (IPoint.x start))) (dragBlockStep r)
    = true \/
  gt (PrimFloat.abs (PrimFloat.sub (clientY e) (IPoint.y start))) (dragBlockStep r)
    = true.

(** The number a float stands for; [None] for the infinities and [NaN]. *)
Definition exact (f : float) : option Q :=
  match Prim2SF f with
  | S754_zero _ => Some 0%Q
  | S754_finite s m e =>
      Some (inject_Z (if s then Z.neg m else Z.pos m) * Qpower 2 e)%Q
  | _ => None
  end.

(** The displacement as the specification words it: the difference of the
    two coordinates, as numbers, is beyond the step in absolute value. *)
Definition displaced_exactly (c start d : float) : Prop :=
  match exact c, exact start, exact d with
  | Some c, Some start, Some d => (d < Qabs (c - start))%Q
  | _, _, _ => False
  end.

Definition exceeds_exactly (r : Readings) (start : IPoint) (e : PointerEvent) : Prop :=
  displaced_exactly (clientX e) (IPoint.x start) (dragBlockStep r) \/
  displaced_exactly (clientY e) (IPoint.y start) (dragBlockStep r).

Definition is_pointerup (i : Input) : bool :=
  match i with pointerup _ => true | _ => false end.

(** The condition of a rejected pointer-down as the specification words
    it: the button is not the primary one, or the event occurs while text
    is edited or space is pressed.  [at_down] is what the collaborators
    would answer when the event occurs; [handleDown] does not ask them. *)
Definition rejected_when_it_occurs (at_down : Readings) (e : PointerEvent) : Prop :=
  button e <> 0 \/ isEditing at_down = true \/ isSpacePressing at_down = true.

(** The calls a list of pointer moves makes while no press is open. *)
Definition hover_calls (t : ITool) (moves : list (Readings * PointerEvent)) : list Call :=
  (fun m => onMoveExcludeDrag t (snd m)
              match target (snd m) with
              | CanvasElement => false
              | OtherElement => true
              end) <$> moves.

Definition handleMoves (moves : list (Readings * PointerEvent)) (w : World) : World :=
  fold_left (fun w m => exec (handleMove (fst m) (snd m)) w) moves w.

(** The fields as the class initialises them, before the constructor body
    has run: no tool is active. *)
Definition blank_world : World :=
  {| this := initial_fields;
     scope := {| isPressing := false; startPos := IPoint.mk 0 0;
                 startWithLeftMouse := false |};
     editor := empty_editor |}.

(** The calls only a switch makes on the new tool's side: construction,
    cursor update, [onActive] and the [switchTool] broadcast. *)
Definition is_activation_call (c : Call) : bool :=
  match c with
  | new_tool _ | onActive _ | setCursor _ | emit (switchTool _) => true
  | _ => false
  end.

(** Where a press stands according to the handlers' flags: a tool is
    active, no end is pending, and the flags of an open press are only set
    while a press is open in the trace. *)
Definition press_inv (w : World) (st : Press) : Prop :=
  is_Some (currentTool (this w)) /\
  settled st = true /\
  (isPressing (scope w) = true -> startWithLeftMouse (scope w) = true ->
   st = press_open).

(** The two tool objects of the sample runs. *)
Definition sample_select : ITool := {| ident := 0; class := SelectTool sample_tools |}.
Definition sample_rect : ITool := {| ident := 1; class := DrawRectTool sample_tools |}.

(** The binding [registerToolCtor] hands to the keybinding manager. *)
Definition binding_of (c : IToolClassConstructor) : KeyBinding :=
  {| keyCode := Key_toUpperCase (static_hotkey c);
     actionName := static_type c;
     captured_type := static_type c |}.

(** The world [registerToolCtor(c)] leaves. *)
Definition registered (c : IToolClassConstructor) (w : World) : World :=
  {| this :=
       upd_keyBindingToken (keyBindingToken (this w) ++ [next_token (editor w)])
         (upd_hotkeySet ({[static_hotkey c]} ∪ hotkeySet (this w))
            (upd_toolCtorMap (<[static_type c := c]> (toolCtorMap (this w))) (this w)));
     scope := scope w;
     editor :=
       upd_trace
         (trace (editor w) ++
          (if bool_decide (is_Some (toolCtorMap (this w) !! static_type c))
           then [console (warn_had_exit (static_type c))] else []) ++
          (if bool_decide (static_hotkey c ∈ hotkeySet (this w))
           then [console (log_same_hotkey (static_hotkey c))] else []))
         (upd_next_token (S (next_token (editor w)))
            (upd_keybindings
               (<[next_token (editor w) := binding_of c]> (keybindings (editor w)))
               (editor w))) |}.

(** A manager whose constructor body has not yet activated a tool, over
    the editor [ed]. *)
Definition unstarted (ed : Editor) (w : World) : Prop :=
  currentTool (this w) = None /\
  enableSwitchTool (this w) = true /\
  scope w = {| isPressing := false; startPos := IPoint.mk 0 0;
               startWithLeftMouse := false |} /\
  allocated (editor w) = allocated ed /\
  listeners (editor w) = listeners ed.

(** The world [bindEvent()] leaves. *)
Definition bound (w : World) : World :=
  {| this := this w;
     scope := {| isPressing := false; startPos := IPoint.mk 0 0;
                 startWithLeftMouse := false |};
     editor := upd_listeners
                 (listeners (editor w) ++
                  [canvas_pointerdown; window_pointermove; window_pointerup;
                   commandManager_change; hostEventManager_spaceToggle;
                   hostEventManager_altToggle; viewportManager_xOrYChange])
                 (editor w) |}.

(** The world [setEnableHotKeyTools(toolTypes)] leaves. *)
Definition enabled (toolTypes : list string) (w : World) : World :=
  {| this := upd_enableToolTypes toolTypes (this w);
     scope := scope w;
     editor := upd_trace (trace (editor w) ++ [emit (changeEnableTools toolTypes)])
                 (editor w) |}.

(** The world after the eight registrations of the constructor. *)
Definition register_all (T : ToolClasses) (w : World) : World :=
  registered (DrawPathTool T)
    (registered (PathSelectTool T)
       (registered (DragCanvasTool T)
          (registered (DrawTextTool T)
             (registered (DrawLineTool T)
                (registered (DrawEllipseTool T)
                   (registered (DrawRectTool T)
                      (registered (SelectTool T) w))))))).

(** The rest of the constructor body. *)
Definition after_registration (T : ToolClasses) : M unit :=
  setEnableHotKeyTools
    [ static_type (SelectTool T); static_type (DrawRectTool T);
      static_type (DrawEllipseTool T); static_type (DrawPathTool T);
      static_type (DrawLineTool T); static_type (DrawTextTool T);
      static_type (DragCanvasTool T) ];;
  setActiveTool (static_type (SelectTool T));;
  let! u := bindEvent in
  assign_this (upd_unbindEvent u).

(* ------------------------------------------------------------------ *)
(** *** The worlds the handlers leave *)

(** The world after a rejected pointer-down. *)
Definition idled (w : World) : World :=
  {| this := upd_isDragging false (this w);
     scope := upd_startWithLeftMouse false (upd_isPressing false (scope w));
     editor := editor w |}.

(** The world after an accepted pointer-down on the tool [t]. *)
Definition pressed (t : ITool) (e : PointerEvent) (w : World) : World :=
  {| this := upd_isDragging false (this w);
     scope := {| isPressing := true;
                 startPos := IPoint.mk (clientX e) (clientY e);
                 startWithLeftMouse := true |};
     editor := upd_trace (trace (editor w) ++ [onStart t e]) (editor w) |}.

Definition moved (r : Readings) (w : World) : World :=
  with_this (upd_currViewportPoint (Some (getCursorXY r))) w.

(** The world after a pointer move that is a drag of the tool [t]. *)
Definition dragged (t : ITool) (r : Readings) (e : PointerEvent) (w : World) : World :=
  {| this := upd_enableSwitchTool false (upd_isDragging true (moved r w).(this));
     scope := scope w;
     editor := upd_trace (trace (editor w) ++ [disableDragBySpace; onDrag t e])
                 (editor w) |}.

Definition gate_opened (w : World) : World := with_this (upd_enableSwitchTool true) w.

(** The world after the pointer-up that ends a press of the tool [t]. *)
Definition released (t : ITool) (e : PointerEvent) (w : World) : World :=
  {| this := upd_isDragging false (upd_enableSwitchTool true (this w));
     scope := upd_isPressing false (scope w);
     editor := upd_trace
                 (trace (editor w) ++
                  [enableDragBySpace; onEnd t e (_isDragging (this w)); afterEnd t e])
                 (editor w) |}.

(** The listeners left by the teardown [u]. *)
Definition after_teardown (u : Unbinder) (ls : list Listener) : list Listener :=
  match u with
  | bindEvent_teardown =>
      filter (fun l => Listener_eqb hostEventManager_spaceToggle l = false)
        (filter (fun l => Listener_eqb commandManager_change l = false)
           (filter (fun l => Listener_eqb window_pointerup l = false)
              (filter (fun l => Listener_eqb window_pointermove l = false)
                 (filter (fun l => Listener_eqb canvas_pointerdown l = false) ls))))
  | noop => ls
  end.

(** The world [unbindEvent()] leaves. *)
Definition unbound (w : World) : World :=
  {| this := upd_keyBindingToken [] (upd_unbindEvent noop (this w));
     scope := scope w;
     editor :=
       upd_keybindings
         (fold_left (fun m token => delete token m) (keyBindingToken (this w))
            (keybindings (editor w)))
         (upd_listeners (after_teardown (_unbindEvent (this w)) (listeners (editor w)))
            (editor w)) |}.

(* ------------------------------------------------------------------ *)
(** *** Notions for the further properties *)

(** The test of [handleMove]:
    [Math.abs(dx) > dragBlockStep || Math.abs(dy) > dragBlockStep]. *)
Definition exceedsb (r : Readings) (start : IPoint) (e : PointerEvent) : bool :=
  gt (PrimFloat.abs (PrimFloat.sub (clientX e) (IPoint.x start))) (dragBlockStep r)
  || gt (PrimFloat.abs (PrimFloat.sub (clientY e) (IPoint.y start))) (dragBlockStep r).

(** The calls the pointer moves of a press make on the tool [t]: none up
    to the first move beyond the threshold, and from that move on
    [disableDragBySpace] and [onDrag] for every move. *)
Fixpoint press_moves_calls (t : ITool) (start : IPoint) (dragging : bool)
    (moves : list (Readings * PointerEvent)) : list Call :=
  match moves with
  | [] => []
  | m :: rest =>
      if dragging || exceedsb (fst m) start (snd m)
      then disableDragBySpace :: onDrag t (snd m)
             :: press_moves_calls t start true rest
      else press_moves_calls t start false rest
  end.

(** Whether a drag was under way or one of the moves went beyond the
    threshold. *)
Definition drag_reached (start : IPoint) (dragging : bool)
    (moves : list (Readings * PointerEvent)) : bool :=
  dragging || existsb (fun m => exceedsb (fst m) start (snd m)) moves.

(** The types carried by the [switchTool] broadcasts of a trace, the
    types of the tools built in it, and the types of the tools activated
    in it, in order. *)
Definition broadcast_type (c : Call) : option string :=
  match c with emit (switchTool ty) => Some ty | _ => None end.
Definition constructed_type (c : Call) : option string :=
  match c with new_tool t => Some (type t) | _ => None end.
Definition activated_type (c : Call) : option string :=
  match c with onActive t => Some (type t) | _ => None end.

(** The types built by the calls [setActiveTool(n)], [n] in [names], that
    pass the four checks, in order. *)
Fixpoint switches (names : list string) (w : World) : list string :=
  match names with
  | [] => []
  | n :: rest =>
      (if passes n w then option_list (built_type n w) else []) ++
      switches rest (step w (call_setActiveTool n))
  end.

(** The two errors of the pointer handlers. *)
Definition is_missing_tool_error (c : Call) : bool :=
  match c with
  | raised no_active_tool | raised tool_not_set => true
  | _ => false
  end.

(** What holds of the flags of a press in every state a constructed
    manager reaches: a tool is active; [isPressing] only together with
    [startWithLeftMouse]; [_isDragging] only during a press and with the
    gate closed. *)
Definition session_inv (w : World) : Prop :=
  is_Some (currentTool (this w)) /\
  (isPressing (scope w) = true -> startWithLeftMouse (scope w) = true) /\
  (_isDragging (this w) = true ->
   isPressing (scope w) = true /\ enableSwitchTool (this w) = false).

(** The inputs of the five sources whose listeners the teardown
    removes. *)
Definition is_detached_input (i : Input) : bool :=
  match i with
  | pointerdown _ | pointermove _ _ | pointerup _ | command_change
  | space_toggle _ => true
  | _ => false
  end.


Definition is_pointermove (i : Input) : bool :=
  match i with pointermove _ _ => true | _ => false end.

(** A class like [c] registered under another type and hotkey. *)
Definition sample_variant (ty hk cur : string) : IToolClassConstructor :=
  {| static_type := ty; static_hotkey := hk; instance_type := ty;
     instance_cursor := cur;
     has_onCommandChange := true; has_onSpaceToggle := true;
     has_onAltToggle := false; has_onViewportXOrYChange := false |}.

(** The state of a manager while its constructor registers the tool
    classes, after [k] registrations over the editor [ed]. *)
Definition registering (ed : Editor) (k : nat) (w : World) : Prop :=
  unstarted ed w /\
  _isDragging (this w) = false /\
  enableToolTypes (this w) = [] /\
  timers (editor w) = timers ed /\
  next_token (editor w) = (next_token ed + k)%nat /\
  keyBindingToken (this w) = seq (next_token ed) k /\
  (forall n c, toolCtorMap (this w) !! n = Some c -> static_type c = n).

(** The trace and the [currentTool] field agree up to [destroy]: at every
    moment of the trace at most one object was active, and at its end
    either none is or the one the field holds. *)
Definition at_most_current (w : World) : Prop :=
  single_active [] (the_trace w) = true /\
  (active_tools (the_trace w) = [] \/
   active_tools (the_trace w) = option_list (ident <$> currentTool (this w))).

(** The inputs that may change which tool is active, or deactivate it. *)
Definition may_switch (i : Input) : bool :=
  match i with
  | hotkey _ | call_setActiveTool _ | call_destroy => true
  | _ => false
  end.

(** The eight tool classes in the order the constructor registers
    them. *)
Definition tool_classes (T : ToolClasses) : list IToolClassConstructor :=
  [ SelectTool T; DrawRectTool T; DrawEllipseTool T; DrawLineTool T;
    DrawTextTool T; DragCanvasTool T; PathSelectTool T; DrawPathTool T ].

(** The world after registering the classes of a list, first to last. *)
Definition register_list (l : list IToolClassConstructor) (w : World) : World :=
  fold_left (fun w c => registered c w) l w.

(** The manager as its field initialisers leave it, over the editor
    [ed], before the constructor body runs. *)
Definition fresh_world (ed : Editor) : World :=
  {| this := initial_fields;
     scope := {| isPressing := false; startPos := IPoint.mk 0 0;
                 startWithLeftMouse := false |};
     editor := ed |}.

(** The seven types the constructor enables. *)
Definition enabled_at_start (T : ToolClasses) : list string :=
  [ static_type (SelectTool T); static_type (DrawRectTool T);
    static_type (DrawEllipseTool T); static_type (DrawPathTool T);
    static_type (DrawLineTool T); static_type (DrawTextTool T);
    static_type (DragCanvasTool T) ].

(** A press on the sample manager that began at x = -1. *)
Definition far_press : World :=
  run [pointerdown (at_ 0 (-1) 0); timeout far] sample_world.

(* ================================================================== *)
(** * Properties *)

Ltac unfold_m :=
  unfold call, assign_this, assign_scope, when_ in *;
  unfold bind, get, ret, modify, throw in *.

Ltac same_world :=
  unfold with_editor, with_this, with_scope; simpl;
  rewrite <- ?app_assoc; simpl; reflexivity.

Lemma setActiveTool_gate_closed toolName w :
  enableSwitchTool (this w) = false ->
  setActiveTool toolName w = (Normal tt, w).
Proof.
  intros Hg. unfold setActiveTool. unfold_m. rewrite Hg. reflexivity.
Qed.

Lemma setActiveTool_already_active toolName w :
  is_active w toolName = true ->
  setActiveTool toolName w = (Normal tt, w).
Proof.
  intros Ha. unfold setActiveTool. unfold_m. rewrite Ha.
  rewrite orb_true_r. reflexivity.
Qed.

Lemma setActiveTool_not_enabled toolName w :
  enableSwitchTool (this w) = true ->
  is_active w toolName = false ->
  includes (enableToolTypes (this w)) toolName = false ->
  setActiveTool toolName w = (Normal tt, said (warn_not_enable toolName) w).
Proof.
  intros Hg Ha He. unfold setActiveTool. unfold_m.
  rewrite Hg, Ha, He. reflexivity.
Qed.

Lemma setActiveTool_not_registered toolName w :
  enableSwitchTool (this w) = true ->
  is_active w toolName = false ->
  includes (enableToolTypes (this w)) toolName = true ->
  toolCtorMap (this w) !! toolName = None ->
  setActiveTool toolName w = (Throw (not_registered toolName), w).
Proof.
  intros Hg Ha He Hr. unfold setActiveTool. unfold_m.
  rewrite Hg, Ha, He, Hr. reflexivity.
Qed.

Lemma setActiveTool_switches toolName c w :
  enableSwitchTool (this w) = true ->
  is_active w toolName = false ->
  includes (enableToolTypes (this w)) toolName = true ->
  toolCtorMap (this w) !! toolName = Some c ->
  setActiveTool toolName w = (Normal tt, switched c w).
Proof.
  intros Hg Ha He Hr. unfold setActiveTool, new, setCursorWhenActive. unfold_m.
  rewrite Hg, Ha, He, Hr. simpl.
  destruct w as [m s ed]; simpl in *.
  unfold switched, switch_calls, with_editor, with_this; simpl.
  destruct (currentTool m); destruct ed; simpl; rewrite <- ?app_assoc; reflexivity.
Qed.

Lemma passes_true toolName w :
  passes toolName w = true ->
  exists c, toolCtorMap (this w) !! toolName = Some c /\
            setActiveTool toolName w = (Normal tt, switched c w).
Proof.
  unfold passes. rewrite !andb_true_iff, negb_true_iff, bool_decide_eq_true.
  intros [[[Hg Ha] He] [c Hc]]. exists c. split; [exact Hc|].
  by apply setActiveTool_switches.
Qed.

(** A call that does not pass leaves every field and every collaborator
    as it was; the trace grows by the console warning at most. *)
Lemma passes_false toolName w :
  passes toolName w = false ->
  exists tr, exec (setActiveTool toolName) w
             = with_editor (fun ed => upd_trace (trace ed ++ tr) ed) w /\
             forallb (fun c => negb (is_switch_call c)) tr = true.
Proof.
  unfold passes, exec. intros Hp.
  destruct (enableSwitchTool (this w)) eqn:Hg; simpl in Hp.
  2:{ rewrite setActiveTool_gate_closed by done. exists [].
      destruct w as [m s []]; split; [| done].
      unfold with_editor, upd_trace; simpl. by rewrite app_nil_r. }
  destruct (is_active w toolName) eqn:Ha; simpl in Hp.
  { rewrite setActiveTool_already_active by done. exists [].
    destruct w as [m s []]; split; [| done].
    unfold with_editor, upd_trace; simpl. by rewrite app_nil_r. }
  destruct (includes (enableToolTypes (this w)) toolName) eqn:He; simpl in Hp.
  2:{ rewrite setActiveTool_not_enabled by done.
      exists [console (warn_not_enable toolName)]. done. }
  apply bool_decide_eq_false in Hp.
  destruct (toolCtorMap (this w) !! toolName) eqn:Hr.
  { exfalso. apply Hp. by eexists. }
  rewrite setActiveTool_not_registered by done.
  exists [raised (not_registered toolName)]. done.
Qed.

(* ------------------------------------------------------------------ *)
(** ** Refused and failing switches *)

Lemma with_editor_nil w :
  with_editor (fun ed => upd_trace (trace ed ++ []) ed) w = w.
Proof.
  destruct w as [m s []]. unfold with_editor, upd_trace; simpl.
  by rewrite app_nil_r.
Qed.

(** C5: [setActiveTool(X)] does nothing when [X] is already the active
    tool, or the switch gate is closed, or [X] is not in the enabled tool
    set: it returns normally, no field of the manager changes (the active
    tool in particular), and the trace grows by no [onInactive], no
    [onActive], no construction, no cursor update and no [switchTool]
    broadcast; all it may add is the console warning of the third case. *)
Theorem setActiveTool_noop (X : string) (w : World) :
  is_active w X = true \/ enableSwitchTool (this w) = false \/
  includes (enableToolTypes (this w)) X = false ->
  exists tr,
    setActiveTool X w
      = (Normal tt, with_editor (fun ed => upd_trace (trace ed ++ tr) ed) w) /\
    (tr = [] \/ tr = [console (warn_not_enable X)]) /\
    forallb (fun c => negb (is_switch_call c)) tr = true /\
    currentTool (this (snd (setActiveTool X w))) = currentTool (this w) /\
    getActiveToolName (snd (setActiveTool X w)) = getActiveToolName w.
Proof.
  intros H.
  assert (exists tr,
    setActiveTool X w
      = (Normal tt, with_editor (fun ed => upd_trace (trace ed ++ tr) ed) w) /\
    (tr = [] \/ tr = [console (warn_not_enable X)])) as (tr & Heq & Htr).
  { destruct (enableSwitchTool (this w)) eqn:Hg.
    - destruct (is_active w X) eqn:Ha.
      + exists []. rewrite with_editor_nil. split; [| by left].
        by apply setActiveTool_already_active.
      + destruct H as [H | [H | H]]; try discriminate.
        exists [console (warn_not_enable X)]. split; [| by right].
        by apply setActiveTool_not_enabled.
    - exists []. rewrite with_editor_nil. split; [| by left].
      by apply setActiveTool_gate_closed. }
  exists tr. rewrite Heq. repeat split; try done.
  destruct Htr as [-> | ->]; reflexivity.
Qed.

Lemma setActiveTool_noop_witness :
  exists tr,
    setActiveTool "select" sample_world
      = (Normal tt,
         with_editor (fun ed => upd_trace (trace ed ++ tr) ed) sample_world) /\
    (tr = [] \/ tr = [console (warn_not_enable "select")]) /\
    forallb (fun c => negb (is_switch_call c)) tr = true /\
    currentTool (this (snd (setActiveTool "select" sample_world)))
      = currentTool (this sample_world) /\
    getActiveToolName (snd (setActiveTool "select" sample_world))
      = getActiveToolName sample_world.
Proof.
  apply (setActiveTool_noop "select" sample_world).
  left. vm_compute. reflexivity.
Defined.

(** C6: [setActiveTool(type)] throws when [type] is in the enabled set,
    is not the active tool, the gate is open and [type] is not registered;
    the world is left exactly as it was (same active tool, nothing
    broadcast).  And the pointer handlers throw when they come to dispatch
    while no tool is active: the deferred body of [handleDown] once it has
    accepted the press, [handleMove] always, [handleUp] for a press begun
    with the primary button; none of them calls anything. *)
Theorem missing_tool_throws (toolName : string) (r : Readings)
    (e : PointerEvent) (w : World) :
  (enableSwitchTool (this w) = true ->
   is_active w toolName = false ->
   includes (enableToolTypes (this w)) toolName = true ->
   toolCtorMap (this w) !! toolName = None ->
   setActiveTool toolName w = (Throw (not_registered toolName), w)) /\
  (currentTool (this w) = None ->
   (accepted r e = true ->
    throws (handleDown_deferred r e) w = Some no_active_tool /\
    the_trace (snd (handleDown_deferred r e w)) = the_trace w) /\
   (throws (handleMove r e) w = Some tool_not_set /\
    the_trace (snd (handleMove r e w)) = the_trace w) /\
   (startWithLeftMouse (scope w) = true ->
    throws (handleUp e) w = Some tool_not_set /\
    the_trace (snd (handleUp e w)) = the_trace w)).
Proof.
  split; [apply setActiveTool_not_registered |].
  destruct w as [[] [] ed]; simpl.
  intros Hnone. split; [| split].
  - unfold accepted. rewrite !andb_true_iff, !negb_true_iff.
    intros [[Hb He] Hs].
    unfold throws, handleDown_deferred. unfold_m. simpl.
    rewrite Hb, He, Hs, Hnone. simpl. done.
  - unfold throws, handleMove. unfold_m. simpl. rewrite Hnone. done.
  - intros Hl. unfold throws, handleUp. unfold_m. simpl.
    rewrite Hl, Hnone. done.
Qed.

Lemma missing_tool_throws_witness :
  setActiveTool "ghost" (step sample_world (call_setEnableHotKeyTools ["ghost"]))
    = (Throw (not_registered "ghost"),
       step sample_world (call_setEnableHotKeyTools ["ghost"])) /\
  throws (handleDown_deferred quiet (at_ 0 3 4)) blank_world = Some no_active_tool /\
  throws (handleMove quiet (at_ 0 3 4)) blank_world = Some tool_not_set.
Proof.
  pose proof (missing_tool_throws "ghost" quiet (at_ 0 3 4)
                (step sample_world (call_setEnableHotKeyTools ["ghost"]))) as [H1 _].
  pose proof (missing_tool_throws "ghost" quiet (at_ 0 3 4) blank_world) as [_ H2].
  split; [apply H1; vm_compute; reflexivity |].
  destruct (H2 eq_refl) as (Hd & Hm & _).
  split; [apply Hd; reflexivity | apply Hm].
Defined.

(* ------------------------------------------------------------------ *)
(** ** The order of a switch *)

Lemma since_app w0 w ext :
  the_trace w = the_trace w0 ++ ext -> since w0 w = ext.
Proof. unfold since. intros ->. apply drop_app_length. Qed.

Lemma run_cons i inputs w : run (i :: inputs) w = run inputs (step w i).
Proof. reflexivity. Qed.

Lemma run_app inputs1 inputs2 w :
  run (inputs1 ++ inputs2) w = run inputs2 (run inputs1 w).
Proof. apply fold_left_app. Qed.

Lemma exec_normal (m : M unit) w w' : m w = (Normal tt, w') -> exec m w = w'.
Proof. unfold exec. by intros ->. Qed.

Lemma since_switched c w :
  since w (switched c w)
  = switch_calls (currentTool (this w)) {| ident := allocated (editor w); class := c |}.
Proof. by apply since_app. Qed.

(** C2, as the code has it: a switch first constructs the new tool, then
    calls [onInactive] on the previous tool if there is one, then updates
    the cursor, then calls [onActive] on the new tool, and broadcasts
    [switchTool] last.  So the previous tool is deactivated before the new
    one is activated, and the broadcast comes after the activation; but the
    construction precedes the deactivation. *)
Theorem setActiveTool_order (toolName : string) (w : World) :
  passes toolName w = true ->
  exists c,
    toolCtorMap (this w) !! toolName = Some c /\
    throws (setActiveTool toolName) w = None /\
    currentTool (this (exec (setActiveTool toolName) w))
      = Some {| ident := allocated (editor w); class := c |} /\
    since w (exec (setActiveTool toolName) w)
      = [new_tool {| ident := allocated (editor w); class := c |}] ++
        match currentTool (this w) with
        | Some prev => [onInactive prev]
        | None => []
        end ++
        [setCursor (instance_cursor c);
         onActive {| ident := allocated (editor w); class := c |};
         emit (switchTool (instance_type c))].
Proof.
  intros Hp. destruct (passes_true _ _ Hp) as (c & Hc & Heq).
  exists c. split; [done |]. unfold throws.
  rewrite (exec_normal _ _ _ Heq), Heq. split; [done |]. split; [done |].
  apply since_switched.
Qed.

Lemma setActiveTool_order_witness :
  exists c,
    toolCtorMap (this sample_world) !! "drawRect" = Some c /\
    throws (setActiveTool "drawRect") sample_world = None /\
    currentTool (this (exec (setActiveTool "drawRect") sample_world))
      = Some {| ident := allocated (editor sample_world); class := c |} /\
    since sample_world (exec (setActiveTool "drawRect") sample_world)
      = [new_tool {| ident := allocated (editor sample_world); class := c |}] ++
        match currentTool (this sample_world) with
        | Some prev => [onInactive prev]
        | None => []
        end ++
        [setCursor (instance_cursor c);
         onActive {| ident := allocated (editor sample_world); class := c |};
         emit (switchTool (instance_type c))].
Proof.
  apply (setActiveTool_order "drawRect" sample_world).
  vm_compute. reflexivity.
Defined.

(** C2 as stated fails: switching the sample manager from [select] to
    [drawRect] passes the four checks, and the calls it makes are in no
    way the specification's sequence, which would begin with [onInactive]
    of the previous tool: the code begins with the construction. *)
Lemma setActiveTool_order_counterexample :
  passes "drawRect" sample_world = true /\
  ~ exists t,
      since sample_world (exec (setActiveTool "drawRect") sample_world)
      = spec_switch_calls (currentTool (this sample_world)) t.
Proof.
  split; [vm_compute; reflexivity |].
  intros [t H]. vm_compute in H. discriminate H.
Qed.

(* ------------------------------------------------------------------ *)
(** ** [destroy] *)

Lemma destroy_some t w :
  currentTool (this w) = Some t ->
  destroy w = (Normal tt,
               with_editor (fun ed => upd_trace (trace ed ++ [onInactive t]) ed) w).
Proof. intros H. unfold destroy. unfold_m. by rewrite H. Qed.

(** C10: [destroy()] calls [onInactive] on the current tool and keeps
    the reference: [getActiveToolName()] answers as before, and a later
    switch to another type calls [onInactive] on that same object once
    more, after constructing the new tool. *)
Theorem destroy_keeps_reference (t : ITool) (toolName : string) (w : World) :
  currentTool (this w) = Some t ->
  since w (exec destroy w) = [onInactive t] /\
  currentTool (this (exec destroy w)) = Some t /\
  getActiveToolName (exec destroy w) = Some (type t) /\
  getActiveToolName (exec destroy w) = getActiveToolName w /\
  (passes toolName (exec destroy w) = true ->
   exists c,
     toolCtorMap (this w) !! toolName = Some c /\
     since w (exec (setActiveTool toolName) (exec destroy w))
     = [onInactive t;
        new_tool {| ident := allocated (editor w); class := c |};
        onInactive t;
        setCursor (instance_cursor c);
        onActive {| ident := allocated (editor w); class := c |};
        emit (switchTool (instance_type c))]).
Proof.
  intros Ht. rewrite (exec_normal _ _ _ (destroy_some _ _ Ht)).
  split; [by apply since_app |]. split; [done |].
  unfold getActiveToolName; simpl. rewrite Ht. split; [done |]. split; [done |].
  intros Hp. destruct (passes_true _ _ Hp) as (c & Hc & Heq).
  exists c. split; [done |]. rewrite (exec_normal _ _ _ Heq).
  apply since_app. unfold the_trace, switched, switch_calls; simpl.
  rewrite Ht. by rewrite <- app_assoc.
Qed.

Lemma destroy_keeps_reference_witness :
  getActiveToolName (exec destroy sample_world) = Some "select" /\
  exists c,
    since sample_world (exec (setActiveTool "drawRect") (exec destroy sample_world))
    = [onInactive {| ident := 0; class := SelectTool sample_tools |};
       new_tool {| ident := 1; class := c |};
       onInactive {| ident := 0; class := SelectTool sample_tools |};
       setCursor (instance_cursor c);
       onActive {| ident := 1; class := c |};
       emit (switchTool (instance_type c))].
Proof.
  destruct (destroy_keeps_reference
              {| ident := 0; class := SelectTool sample_tools |}
              "drawRect" sample_world eq_refl) as (_ & _ & Hn & _ & Hs).
  split; [exact Hn |].
  destruct (Hs eq_refl) as (c & _ & Hc). exists c. exact Hc.
Defined.

(* ------------------------------------------------------------------ *)
(** ** One active tool *)

Lemma single_active_app acc tr ext :
  single_active acc (tr ++ ext)
  = single_active acc tr && single_active (fold_left activity tr acc) ext.
Proof.
  revert acc. induction tr as [| c tr IH]; intros acc; simpl.
  - destruct ext; simpl; destruct (length acc <=? 1)%nat; simpl;
      rewrite ?andb_true_r; reflexivity.
  - rewrite IH. by rewrite andb_assoc.
Qed.

Lemma activity_other acc c : is_switch_call c = false -> activity acc c = acc.
Proof. destruct c; simpl; try done. Qed.

Lemma fold_activity_others acc tr :
  forallb (fun c => negb (is_switch_call c)) tr = true ->
  fold_left activity tr acc = acc.
Proof.
  induction tr as [| c tr IH]; simpl; [done |].
  rewrite andb_true_iff, negb_true_iff. intros [Hc Htr].
  rewrite activity_other by done. by apply IH.
Qed.

Lemma single_active_others acc tr :
  forallb (fun c => negb (is_switch_call c)) tr = true ->
  single_active acc tr = (length acc <=? 1)%nat.
Proof.
  induction tr as [| c tr IH]; simpl; [by rewrite andb_true_r |].
  rewrite andb_true_iff, negb_true_iff. intros [Hc Htr].
  rewrite activity_other by done. rewrite IH by done.
  by destruct (length acc <=? 1)%nat.
Qed.

Lemma single_active_holds acc tr :
  single_active acc tr = true -> (length acc <=? 1)%nat = true.
Proof. destruct tr; simpl; rewrite andb_true_iff; tauto. Qed.

Lemma consistent_others w tr :
  forallb (fun c => negb (is_switch_call c)) tr = true ->
  consistent w ->
  consistent (with_editor (fun ed => upd_trace (trace ed ++ tr) ed) w).
Proof.
  intros Htr [Hs Ha]. unfold consistent, the_trace, active_tools in *. simpl.
  rewrite single_active_app, fold_left_app, Hs, Ha. simpl.
  rewrite fold_activity_others, single_active_others by done.
  split; [| done].
  destruct (currentTool (this w)); reflexivity.
Qed.

Lemma consistent_switched c w : consistent w -> consistent (switched c w).
Proof.
  intros [Hs Ha]. unfold consistent, the_trace, active_tools in *. simpl.
  rewrite single_active_app, fold_left_app, Hs, Ha.
  destruct (currentTool (this w)) as [p |]; simpl.
  - assert (filter (fun i : nat => i ≠ ident p) [ident p] = []) as ->.
    { rewrite filter_cons, decide_False by (intros H; by apply H). done. }
    done.
  - done.
Qed.

Lemma step_setActiveTool_passes toolName w :
  passes toolName w = true ->
  exists c, toolCtorMap (this w) !! toolName = Some c /\
            step w (call_setActiveTool toolName) = switched c w.
Proof.
  intros Hp. destruct (passes_true _ _ Hp) as (c & Hc & Heq).
  exists c. split; [done |]. by apply exec_normal.
Qed.

Lemma getActiveToolName_step toolName w :
  getActiveToolName (step w (call_setActiveTool toolName))
  = if passes toolName w then built_type toolName w else getActiveToolName w.
Proof.
  destruct (passes toolName w) eqn:Hp.
  - destruct (step_setActiveTool_passes _ _ Hp) as (c & Hc & ->).
    unfold built_type. rewrite Hc. reflexivity.
  - destruct (passes_false _ _ Hp) as (tr & Heq & _).
    unfold step, react. rewrite Heq. reflexivity.
Qed.

Lemma toolCtorMap_step toolName w :
  toolCtorMap (this (step w (call_setActiveTool toolName))) = toolCtorMap (this w).
Proof.
  destruct (passes toolName w) eqn:Hp.
  - by destruct (step_setActiveTool_passes _ _ Hp) as (c & Hc & ->).
  - destruct (passes_false _ _ Hp) as (tr & Heq & _).
    unfold step, react. by rewrite Heq.
Qed.

Lemma consistent_step toolName w :
  consistent w -> consistent (step w (call_setActiveTool toolName)).
Proof.
  intros Hc. destruct (passes toolName w) eqn:Hp.
  - destruct (step_setActiveTool_passes _ _ Hp) as (c & _ & ->).
    by apply consistent_switched.
  - destruct (passes_false _ _ Hp) as (tr & Heq & Htr).
    unfold step, react. rewrite Heq. by apply consistent_others.
Qed.

Lemma built_type_coherent toolName w :
  coherent w -> passes toolName w = true ->
  built_type toolName w = requested_type toolName w.
Proof.
  intros Hco Hp. destruct (passes_true _ _ Hp) as (c & Hc & _).
  unfold built_type, requested_type. rewrite Hc. simpl.
  f_equal. by apply Hco.
Qed.

(** C1: whatever sequence of [setActiveTool] calls is made on a manager
    whose trace agrees with its [currentTool] field, at every moment of the
    resulting trace at most one tool object is active (has received
    [onActive] and not yet [onInactive]), the object active at the end is
    the one the manager holds, and [getActiveToolName()] is the type of the
    tool built by the last call that passed the four checks (gate,
    already-active, enabled set, registration) - which is the type that
    call asked for when every registered class builds tools of the type it
    is registered under. *)
Theorem single_active_tool (names : list string) (w : World) :
  consistent w ->
  single_active [] (the_trace (run (call_setActiveTool <$> names) w)) = true /\
  active_tools (the_trace (run (call_setActiveTool <$> names) w))
    = option_list (ident <$> currentTool (this (run (call_setActiveTool <$> names) w))) /\
  (length (active_tools (the_trace (run (call_setActiveTool <$> names) w))) <= 1)%nat /\
  getActiveToolName (run (call_setActiveTool <$> names) w)
    = last_activated built_type names w (getActiveToolName w) /\
  (coherent w ->
   getActiveToolName (run (call_setActiveTool <$> names) w)
     = last_activated requested_type names w (getActiveToolName w)).
Proof.
  revert w. induction names as [| n names IH]; intros w Hc.
  - simpl. destruct Hc as [Hs Ha]. repeat split; try done.
    rewrite Ha. destruct (currentTool (this w)); simpl; lia.
  - rewrite fmap_cons, run_cons. cbn [last_activated].
    destruct (IH _ (consistent_step n w Hc)) as (H1 & H2 & H3 & H4 & H5).
    repeat split; try done.
    + rewrite H4. by rewrite getActiveToolName_step.
    + intros Hco. rewrite H5.
      2:{ intros k c. rewrite toolCtorMap_step. apply Hco. }
      rewrite getActiveToolName_step.
      destruct (passes n w) eqn:Hp; [| done].
      by rewrite built_type_coherent.
Qed.

Lemma sample_world_consistent : consistent sample_world.
Proof. split; vm_compute; reflexivity. Qed.

Lemma sample_world_coherent : coherent sample_world.
Proof.
  intros n c H.
  assert (forall k v, map_to_list (toolCtorMap (this sample_world)) !! k = Some v ->
                      instance_type v.2 = v.1) as Hall.
  { vm_compute. intros k v.
    repeat (destruct k as [| k]; [intros [= <-]; reflexivity |]).
    discriminate. }
  apply elem_of_map_to_list in H. apply list_elem_of_lookup in H as [k Hk].
  apply (Hall k (n, c) Hk).
Qed.

Lemma single_active_tool_witness :
  single_active []
    (the_trace (run (call_setActiveTool <$> ["drawRect"; "pathSelect"; "pen"])
                  sample_world)) = true /\
  getActiveToolName (run (call_setActiveTool <$> ["drawRect"; "pathSelect"; "pen"])
                       sample_world) = Some "pen".
Proof.
  destruct (single_active_tool ["drawRect"; "pathSelect"; "pen"] sample_world
              sample_world_consistent) as (H1 & _ & _ & _ & H5).
  split; [exact H1 |]. rewrite (H5 sample_world_coherent).
  vm_compute. reflexivity.
Defined.

(* ------------------------------------------------------------------ *)
(** ** What the pointer handlers do *)

Lemma exceeds_gtb r start e :
  exceeds r start e <->
  gt (PrimFloat.abs (PrimFloat.sub (clientX e) (IPoint.x start))) (dragBlockStep r)
  || gt (PrimFloat.abs (PrimFloat.sub (clientY e) (IPoint.y start))) (dragBlockStep r)
  = true.
Proof.
  unfold exceeds. rewrite orb_true_iff. tauto.
Qed.

Lemma handleDown_deferred_rejected r e w :
  accepted r e = false ->
  handleDown_deferred r e w = (Normal tt, idled w).
Proof.
  unfold accepted, handleDown_deferred, idled. intros H. unfold_m. simpl.
  destruct (button e =? 0), (isEditing r), (isSpacePressing r);
    try discriminate; reflexivity.
Qed.

Lemma handleDown_deferred_accepted t r e w :
  accepted r e = true ->
  currentTool (this w) = Some t ->
  handleDown_deferred r e w = (Normal tt, pressed t e w).
Proof.
  unfold accepted, handleDown_deferred, pressed.
  rewrite !andb_true_iff, !negb_true_iff. intros [[Hb He] Hs] Ht.
  unfold_m. simpl. rewrite Hb, He, Hs. simpl. rewrite Ht. reflexivity.
Qed.

Lemma handleMove_hover t r e w :
  currentTool (this w) = Some t ->
  isPressing (scope w) = false ->
  handleMove r e w
  = (Normal tt,
     with_editor (fun ed => upd_trace
       (trace ed ++ [onMoveExcludeDrag t e (canvasElement_is_not (target e))]) ed)
       (moved r w)).
Proof. intros Ht Hp. unfold handleMove. unfold_m. simpl. by rewrite Ht, Hp. Qed.

Lemma handleMove_other_button t r e w :
  currentTool (this w) = Some t ->
  isPressing (scope w) = true ->
  startWithLeftMouse (scope w) = false ->
  handleMove r e w = (Normal tt, moved r w).
Proof. intros Ht Hp Hl. unfold handleMove. unfold_m. simpl. by rewrite Ht, Hp, Hl. Qed.

Lemma handleMove_within t r e w :
  currentTool (this w) = Some t ->
  isPressing (scope w) = true ->
  startWithLeftMouse (scope w) = true ->
  _isDragging (this w) = false ->
  ~ exceeds r (startPos (scope w)) e ->
  handleMove r e w = (Normal tt, moved r w).
Proof.
  intros Ht Hp Hl Hd Hx. rewrite exceeds_gtb in Hx.
  apply not_true_is_false in Hx.
  unfold handleMove. unfold_m. simpl. rewrite Ht, Hp, Hl, Hd, Hx. simpl.
  by rewrite Hd.
Qed.

Lemma handleMove_drag t r e w :
  currentTool (this w) = Some t ->
  isPressing (scope w) = true ->
  startWithLeftMouse (scope w) = true ->
  _isDragging (this w) = true \/ exceeds r (startPos (scope w)) e ->
  handleMove r e w = (Normal tt, dragged t r e w).
Proof.
  intros Ht Hp Hl Hd. rewrite exceeds_gtb in Hd.
  unfold handleMove, dragged. unfold_m. simpl. rewrite Ht, Hp, Hl. simpl.
  destruct w as [m s ed]; destruct m, ed; simpl in *.
  destruct _isDragging0; simpl.
  - same_world.
  - destruct Hd as [Hd | Hd]; [discriminate |]. rewrite Hd. same_world.
Qed.

Lemma handleUp_other_button e w :
  startWithLeftMouse (scope w) = false ->
  handleUp e w = (Normal tt, gate_opened w).
Proof. intros Hl. unfold handleUp. unfold_m. simpl. by rewrite Hl. Qed.

Lemma handleUp_release t e w :
  currentTool (this w) = Some t ->
  startWithLeftMouse (scope w) = true ->
  isPressing (scope w) = true ->
  handleUp e w = (Normal tt, released t e w).
Proof.
  intros Ht Hl Hp. unfold handleUp, released. unfold_m. simpl.
  rewrite Hl, Ht, Hp. simpl.
  destruct w as [m s ed]; destruct m, ed; simpl in *.
  same_world.
Qed.

Lemma handleUp_not_pressing t e w :
  currentTool (this w) = Some t ->
  startWithLeftMouse (scope w) = true ->
  isPressing (scope w) = false ->
  handleUp e w
  = (Normal tt, with_this (fun m => upd_isDragging false (upd_enableSwitchTool true m)) w).
Proof.
  intros Ht Hl Hp. unfold handleUp. unfold_m. simpl.
  by rewrite Hl, Ht, Hp.
Qed.

(* ------------------------------------------------------------------ *)
(** ** What the other operations do *)

Lemma for_each_unregister tokens w :
  for_each tokens keybindingManager_unregister w
  = (Normal tt,
     with_editor (fun ed =>
       upd_keybindings (fold_left (fun m token => delete token m) tokens (keybindings ed)) ed) w).
Proof.
  revert w. induction tokens as [| token tokens IH]; intros w; simpl.
  - destruct w as [m s []]; reflexivity.
  - unfold bind at 1. unfold keybindingManager_unregister at 1, modify.
    rewrite IH. destruct w as [m s []]; reflexivity.
Qed.

Lemma unbindEvent_effect w : unbindEvent w = (Normal tt, unbound w).
Proof.
  unfold unbindEvent, unbindHotkey, call_unbinder, removeListener.
  unfold bind at 1. unfold get at 1.
  destruct w as [m s ed]. destruct m, ed. simpl.
  destruct _unbindEvent0; unfold_m; simpl; rewrite for_each_unregister; reflexivity.
Qed.

(* ------------------------------------------------------------------ *)
(** ** One input at a time *)

Ltac unfold_ops :=
  unfold step, exec, react, deliver, run_timer, keybindingManager_trigger,
    binding_when, binding_action, handleDown, handleDown_deferred, handleMove,
    handleUp, handleCommandChange, handleSpaceToggle, handleAltToggle,
    handleViewportXOrYChange, optional_call, setEnableHotKeyTools, destroy,
    setActiveTool, new, setCursorWhenActive, listening, the_trace in *.

Ltac extend_trace :=
  simpl; rewrite <- ?app_assoc;
  first [ eexists; split; [reflexivity | simpl; reflexivity]
        | exists []; split; [by rewrite app_nil_r | reflexivity] ].

(** While the gate is closed, no input but a pointer-up opens it, changes
    the current tool or makes a call of an activation. *)
Lemma step_gate_closed w i :
  enableSwitchTool (this w) = false ->
  is_pointerup i = false ->
  enableSwitchTool (this (step w i)) = false /\
  currentTool (this (step w i)) = currentTool (this w) /\
  exists ext, the_trace (step w i) = the_trace w ++ ext /\
              forallb (fun c => negb (is_activation_call c)) ext = true.
Proof.
  intros Hg Hi. destruct i; try discriminate Hi;
    try (unfold step, exec, react; rewrite unbindEvent_effect;
         split; [done |]; split; [done |]; exists []; by rewrite app_nil_r).
  all: destruct w as [m s ed]; destruct m, ed; simpl in *; subst.
  all: unfold_ops; unfold_m; simpl.
  all: repeat case_match; simplify_eq/=.
  all: try (split; [done |]; split; [done |]; extend_trace).
Qed.

Lemma run_gate_closed inputs w :
  enableSwitchTool (this w) = false ->
  forallb (fun i => negb (is_pointerup i)) inputs = true ->
  enableSwitchTool (this (run inputs w)) = false /\
  currentTool (this (run inputs w)) = currentTool (this w) /\
  exists ext, the_trace (run inputs w) = the_trace w ++ ext /\
              forallb (fun c => negb (is_activation_call c)) ext = true.
Proof.
  revert w. induction inputs as [| i inputs IH]; intros w Hg Hall.
  - split; [done |]. split; [done |]. exists []. by rewrite app_nil_r.
  - simpl in Hall. apply andb_true_iff in Hall as [Hi Hall].
    apply negb_true_iff in Hi.
    destruct (step_gate_closed w i Hg Hi) as (Hg1 & Hc1 & ext1 & Ht1 & He1).
    rewrite run_cons.
    destruct (IH _ Hg1 Hall) as (Hg2 & Hc2 & ext2 & Ht2 & He2).
    split; [done |]. split; [congruence |].
    exists (ext1 ++ ext2). rewrite Ht2, Ht1, app_assoc. split; [done |].
    by rewrite forallb_app, He1, He2.
Qed.

(** C4, for the displacement as the code computes it (the difference
    and its absolute value in binary64 arithmetic, compared by [>]):
    during a press begun with the primary button, the pointer move
    on which the displacement from the press start exceeds [dragBlockStep]
    on an axis - and every pointer move once dragging - latches
    [isDragging], closes the switch gate, suppresses pan-by-space and calls
    [onDrag(event)] on the active tool; from then on no input other than a
    pointer-up reopens the gate, so every [setActiveTool] is refused: the
    current tool stays and nothing is constructed, activated or broadcast.
    A move within the threshold before that calls nothing and changes only
    the remembered pointer position. *)
Theorem drag_threshold (t : ITool) (r : Readings) (e : PointerEvent)
    (w : World) (inputs : list Input) (toolName : string) :
  currentTool (this w) = Some t ->
  isPressing (scope w) = true ->
  startWithLeftMouse (scope w) = true ->
  (_isDragging (this w) = true \/ exceeds r (startPos (scope w)) e ->
   throws (handleMove r e) w = None /\
   isDragging (exec (handleMove r e) w) = true /\
   enableSwitchTool (this (exec (handleMove r e) w)) = false /\
   since w (exec (handleMove r e) w) = [disableDragBySpace; onDrag t e] /\
   scope (exec (handleMove r e) w) = scope w /\
   (forallb (fun i => negb (is_pointerup i)) inputs = true ->
    enableSwitchTool (this (run inputs (exec (handleMove r e) w))) = false /\
    currentTool (this (run inputs (exec (handleMove r e) w))) = Some t /\
    forallb (fun c => negb (is_activation_call c))
      (since (exec (handleMove r e) w) (run inputs (exec (handleMove r e) w))) = true /\
    setActiveTool toolName (run inputs (exec (handleMove r e) w))
      = (Normal tt, run inputs (exec (handleMove r e) w)))) /\
  (_isDragging (this w) = false -> ~ exceeds r (startPos (scope w)) e ->
   exec (handleMove r e) w = moved r w /\
   since w (exec (handleMove r e) w) = [] /\
   isDragging (exec (handleMove r e) w) = false /\
   enableSwitchTool (this (exec (handleMove r e) w)) = enableSwitchTool (this w)).
Proof.
  intros Ht Hp Hl. split.
  - intros Hd. pose proof (handleMove_drag t r e w Ht Hp Hl Hd) as Heq.
    unfold throws. rewrite (exec_normal _ _ _ Heq), Heq.
    split; [done |]. split; [done |]. split; [done |].
    split; [by apply since_app |]. split; [done |].
    intros Hall.
    destruct (run_gate_closed inputs (dragged t r e w) eq_refl Hall)
      as (Hg & Hc & ext & Hext & Hno).
    split; [done |]. split; [by rewrite Hc |].
    split; [by rewrite (since_app _ _ _ Hext) |].
    by apply setActiveTool_gate_closed.
  - intros Hd Hx. pose proof (handleMove_within t r e w Ht Hp Hl Hd Hx) as Heq.
    rewrite (exec_normal _ _ _ Heq). split; [done |].
    split; [apply since_app; unfold the_trace; simpl; by rewrite app_nil_r |].
    split; [exact Hd | done].
Qed.

Lemma drag_threshold_witness :
  since (run [pointerdown (at_ 0 0 0); timeout quiet] sample_world)
    (exec (handleMove quiet (at_ 0 10 10))
       (run [pointerdown (at_ 0 0 0); timeout quiet] sample_world))
  = [disableDragBySpace;
     onDrag {| ident := 0; class := SelectTool sample_tools |} (at_ 0 10 10)] /\
  getActiveToolName
    (run [call_setActiveTool "drawRect"; hotkey 1%nat; pointermove quiet (at_ 0 12 9)]
       (exec (handleMove quiet (at_ 0 10 10))
          (run [pointerdown (at_ 0 0 0); timeout quiet] sample_world)))
  = Some "select".
Proof.
  destruct (drag_threshold {| ident := 0; class := SelectTool sample_tools |}
              quiet (at_ 0 10 10)
              (run [pointerdown (at_ 0 0 0); timeout quiet] sample_world)
              [call_setActiveTool "drawRect"; hotkey 1%nat; pointermove quiet (at_ 0 12 9)]
              "drawRect" eq_refl eq_refl eq_refl) as [H _].
  destruct H as (_ & _ & _ & Hs & _ & Hrest).
  { right. left. vm_compute. reflexivity. }
  split; [exact Hs |].
  destruct (Hrest eq_refl) as (_ & Hc & _).
  unfold getActiveToolName. rewrite Hc. reflexivity.
Defined.

(** C4 as stated fails where the subtraction rounds.  The press began at
    x = -1 and the step is 2^53; the pointer moves to x = 2^53.  The
    displacement is 2^53 + 1, beyond the step, but [clientX - startPos.x]
    is rounded to 2^53, which is not: [handleMove] calls nothing, nothing
    is dragging, the gate stays open and the next [setActiveTool] switches
    the tool. *)
Lemma drag_threshold_counterexample :
  currentTool (this far_press) = Some sample_select /\
  isPressing (scope far_press) = true /\
  startWithLeftMouse (scope far_press) = true /\
  startPos (scope far_press) = IPoint.mk (-1) 0 /\
  exceeds_exactly far (startPos (scope far_press)) (at_ 0 9007199254740992 0) /\
  since far_press (exec (handleMove far (at_ 0 9007199254740992 0)) far_press) = [] /\
  isDragging (exec (handleMove far (at_ 0 9007199254740992 0)) far_press) = false /\
  enableSwitchTool (this (exec (handleMove far (at_ 0 9007199254740992 0)) far_press))
    = true /\
  getActiveToolName
    (step (exec (handleMove far (at_ 0 9007199254740992 0)) far_press)
       (call_setActiveTool "drawRect"))
    = Some "drawRect".
Proof.
  repeat split; try (vm_compute; reflexivity).
  left. vm_compute. reflexivity.
Qed.

(* ------------------------------------------------------------------ *)
(** ** A rejected pointer-down *)

Lemma handleMoves_hover t moves w :
  currentTool (this w) = Some t ->
  isPressing (scope w) = false ->
  the_trace (handleMoves moves w) = the_trace w ++ hover_calls t moves /\
  isPressing (scope (handleMoves moves w)) = false /\
  currentTool (this (handleMoves moves w)) = Some t /\
  isDragging (handleMoves moves w) = isDragging w.
Proof.
  revert w. induction moves as [| [r e] moves IH]; intros w Ht Hp.
  - simpl. by rewrite app_nil_r.
  - change (handleMoves ((r, e) :: moves) w)
      with (handleMoves moves (exec (handleMove r e) w)).
    rewrite (exec_normal _ _ _ (handleMove_hover t r e w Ht Hp)).
    destruct (IH (with_editor (fun ed => upd_trace
       (trace ed ++ [onMoveExcludeDrag t e (canvasElement_is_not (target e))]) ed)
       (moved r w)) Ht Hp) as (H1 & H2 & H3 & H4).
    rewrite H1, H2, H3, H4. unfold the_trace; simpl.
    by rewrite <- app_assoc.
Qed.

(** C7, for the conditions as the code reads them: when the deferred
    body of [handleDown] runs for a pointer-down whose button is not the
    primary one, or runs while text is being edited or while space is
    pressed, nothing is called ([onStart] in particular), no press is
    entered ([isPressing], [startWithLeftMouse] and [isDragging] are
    false), and every following pointer move calls
    [onMoveExcludeDrag(event, isOutsideCanvas)] on the active tool, never
    [onDrag]; the flag is false for an event whose target is the canvas
    and true for any other. *)
Theorem rejected_pointerdown_stays_idle (r : Readings) (e : PointerEvent)
    (w : World) (t : ITool) (moves : list (Readings * PointerEvent)) :
  button e <> 0 \/ isEditing r = true \/ isSpacePressing r = true ->
  throws (handleDown_deferred r e) w = None /\
  since w (exec (handleDown_deferred r e) w) = [] /\
  isPressing (scope (exec (handleDown_deferred r e) w)) = false /\
  startWithLeftMouse (scope (exec (handleDown_deferred r e) w)) = false /\
  isDragging (exec (handleDown_deferred r e) w) = false /\
  currentTool (this (exec (handleDown_deferred r e) w)) = currentTool (this w) /\
  (currentTool (this w) = Some t ->
   since w (handleMoves moves (exec (handleDown_deferred r e) w))
     = hover_calls t moves /\
   isPressing (scope (handleMoves moves (exec (handleDown_deferred r e) w))) = false /\
   isDragging (handleMoves moves (exec (handleDown_deferred r e) w)) = false).
Proof.
  intros Hrej.
  assert (accepted r e = false) as Hacc.
  { unfold accepted. destruct Hrej as [Hb | [-> | ->]].
    - apply Z.eqb_neq in Hb. by rewrite Hb.
    - by rewrite andb_false_r.
    - by rewrite andb_false_r. }
  pose proof (handleDown_deferred_rejected r e w Hacc) as Heq.
  unfold throws. rewrite (exec_normal _ _ _ Heq), Heq.
  split; [done |].
  split; [apply since_app; unfold the_trace; simpl; by rewrite app_nil_r |].
  split; [done |]. split; [done |]. split; [done |]. split; [done |].
  intros Ht.
  destruct (handleMoves_hover t moves (idled w) Ht eq_refl) as (H1 & H2 & _ & H4).
  split; [by apply since_app |]. split; [done |]. by rewrite H4.
Qed.

Lemma rejected_pointerdown_stays_idle_witness :
  since sample_world
    (handleMoves [(quiet, at_ 2 7 7); (quiet, outside 2 40 40)]
       (exec (handleDown_deferred quiet (at_ 2 0 0)) sample_world))
  = [onMoveExcludeDrag sample_select (at_ 2 7 7) false;
     onMoveExcludeDrag sample_select (outside 2 40 40) true].
Proof.
  destruct (rejected_pointerdown_stays_idle quiet (at_ 2 0 0) sample_world
              sample_select
              [(quiet, at_ 2 7 7); (quiet, outside 2 40 40)]) as (_ & _ & _ & _ & _ & _ & H).
  { left. simpl. lia. }
  destruct (H eq_refl) as [Hs _]. exact Hs.
Defined.

(** C7 as stated fails: the three conditions are not read when the
    pointer-down occurs.  [handleDown] only schedules its body, and the
    body asks the collaborators when it runs.  A primary-button
    pointer-down that occurs while text is being edited ([editing]) and
    whose body runs once the editing has ended ([quiet]) starts a press:
    [onStart] is called, and the next move beyond the threshold is
    dispatched as [onDrag]. *)
Lemma rejected_pointerdown_stays_idle_counterexample :
  rejected_when_it_occurs editing (at_ 0 0 0) /\
  step sample_world (pointerdown (at_ 0 0 0))
    = with_editor (upd_timers [at_ 0 0 0]) sample_world /\
  since sample_world (run [pointerdown (at_ 0 0 0); timeout quiet] sample_world)
    = [onStart sample_select (at_ 0 0 0)] /\
  isPressing (scope (run [pointerdown (at_ 0 0 0); timeout quiet] sample_world))
    = true /\
  since (run [pointerdown (at_ 0 0 0); timeout quiet] sample_world)
    (run [pointerdown (at_ 0 0 0); timeout quiet; pointermove quiet (at_ 0 10 10)]
       sample_world)
    = [disableDragBySpace; onDrag sample_select (at_ 0 10 10)].
Proof.
  split; [right; left; reflexivity |].
  repeat split; vm_compute; reflexivity.
Qed.

(* ------------------------------------------------------------------ *)
(** ** Hotkeys *)

Lemma registerToolCtor_effect c w :
  registerToolCtor c w = (Normal tt, registered c w).
Proof.
  unfold registerToolCtor, keybindingManager_register, registered, binding_of.
  unfold_m. destruct w as [m s ed]; destruct m, ed; simpl.
  destruct (bool_decide (is_Some (toolCtorMap0 !! static_type c))); simpl;
    destruct (bool_decide (static_hotkey c ∈ hotkeySet0)); simpl;
    unfold with_this, with_editor; simpl;
    rewrite <- ?app_assoc, ?app_nil_r; reflexivity.
Qed.

Lemma hotkey_disabled token b w :
  keybindings (editor w) !! token = Some b ->
  includes (enableToolTypes (this w)) (captured_type b) = false ->
  step w (hotkey token) = w.
Proof.
  intros Hb Hd. unfold step, exec, react, keybindingManager_trigger, binding_when.
  unfold_m. by rewrite Hb, Hd.
Qed.

Lemma hotkey_enabled token b w :
  keybindings (editor w) !! token = Some b ->
  includes (enableToolTypes (this w)) (captured_type b) = true ->
  step w (hotkey token) = step w (call_setActiveTool (captured_type b)).
Proof.
  intros Hb Hd.
  unfold step, exec, react, keybindingManager_trigger, binding_when, binding_action.
  unfold bind at 1. unfold get at 1. unfold when_. by rewrite Hb, Hd.
Qed.

(** C8: the binding [registerToolCtor] registers for a tool class holds
    the class's type and no copy of the enabled set; its predicate reads
    the enabled set of the moment the key is pressed.  So triggering the
    hotkey of a tool outside the enabled set changes nothing at all, and
    once [setEnableHotKeyTools] has put the type into the set - which
    touches neither the bindings nor their tokens - the same binding acts
    as [setActiveTool] of that type. *)
Theorem hotkey_predicate_at_trigger_time (c : IToolClassConstructor)
    (w0 w : World) (token : nat) (b : KeyBinding) (toolTypes : list string) :
  keybindings (editor w) !! token = Some b ->
  keybindings (editor (exec (registerToolCtor c) w0)) !! next_token (editor w0)
    = Some (binding_of c) /\
  binding_when (binding_of c) w = includes (enableToolTypes (this w)) (static_type c) /\
  (includes (enableToolTypes (this w)) (captured_type b) = false ->
   step w (hotkey token) = w) /\
  keybindings (editor (step w (call_setEnableHotKeyTools toolTypes)))
    = keybindings (editor w) /\
  keyBindingToken (this (step w (call_setEnableHotKeyTools toolTypes)))
    = keyBindingToken (this w) /\
  (includes toolTypes (captured_type b) = true ->
   step (step w (call_setEnableHotKeyTools toolTypes)) (hotkey token)
   = step (step w (call_setEnableHotKeyTools toolTypes))
       (call_setActiveTool (captured_type b)) /\
   (passes (captured_type b) (step w (call_setEnableHotKeyTools toolTypes)) = true ->
    getActiveToolName
      (step (step w (call_setEnableHotKeyTools toolTypes)) (hotkey token))
    = built_type (captured_type b) w)).
Proof.
  intros Hb.
  split.
  { rewrite (exec_normal _ _ _ (registerToolCtor_effect c w0)). simpl.
    apply lookup_insert_eq. }
  split; [reflexivity |].
  split; [by apply hotkey_disabled |].
  split; [reflexivity |]. split; [reflexivity |].
  intros Hin.
  assert (step (step w (call_setEnableHotKeyTools toolTypes)) (hotkey token)
          = step (step w (call_setEnableHotKeyTools toolTypes))
              (call_setActiveTool (captured_type b))) as Heq.
  { by apply hotkey_enabled. }
  split; [exact Heq |].
  intros Hp. rewrite Heq, getActiveToolName_step, Hp. reflexivity.
Qed.

Lemma hotkey_predicate_at_trigger_time_witness :
  step (step sample_world (call_setEnableHotKeyTools ["select"])) (hotkey 1%nat)
    = step sample_world (call_setEnableHotKeyTools ["select"]) /\
  getActiveToolName
    (step (step (step sample_world (call_setEnableHotKeyTools ["select"]))
             (call_setEnableHotKeyTools ["select"; "drawRect"])) (hotkey 1%nat))
    = Some "drawRect".
Proof.
  destruct (hotkey_predicate_at_trigger_time (DrawRectTool sample_tools)
              blank_world
              (step sample_world (call_setEnableHotKeyTools ["select"]))
              1%nat (binding_of (DrawRectTool sample_tools))
              ["select"; "drawRect"] eq_refl) as (_ & _ & Hoff & _ & _ & Hon).
  split; [apply Hoff; reflexivity |].
  destruct (Hon eq_refl) as [_ Hname]. rewrite Hname; reflexivity.
Defined.

(* ------------------------------------------------------------------ *)
(** ** Teardown *)

Lemma after_teardown_keeps l ls :
  l = hostEventManager_altToggle \/ l = viewportManager_xOrYChange ->
  existsb (Listener_eqb l) (after_teardown bindEvent_teardown ls)
  = existsb (Listener_eqb l) ls.
Proof.
  intros Hl. unfold after_teardown.
  induction ls as [| l' ls IH]; [done |].
  destruct Hl as [-> | ->]; destruct l'; simpl in *;
    rewrite ?filter_cons; simpl; rewrite ?IH; auto.
Qed.

(** After [unbindEvent()] the alt-toggle and viewport listeners are
    registered exactly as before. *)
Lemma unbindEvent_keeps_listening l w :
  l = hostEventManager_altToggle \/ l = viewportManager_xOrYChange ->
  listening l (exec unbindEvent w) = listening l w.
Proof.
  intros Hl. rewrite (exec_normal _ _ _ (unbindEvent_effect w)).
  unfold listening, unbound; simpl.
  destruct (_unbindEvent (this w)); [by apply after_teardown_keeps | done].
Qed.

(** The other five registrations of [bindEvent] are removed. *)
Lemma unbindEvent_removes l w :
  _unbindEvent (this w) = bindEvent_teardown ->
  l <> hostEventManager_altToggle -> l <> viewportManager_xOrYChange ->
  listening l (exec unbindEvent w) = false.
Proof.
  intros Hu Ha Hv. rewrite (exec_normal _ _ _ (unbindEvent_effect w)).
  unfold listening, unbound; simpl. rewrite Hu. unfold after_teardown.
  induction (listeners (editor w)) as [| l' ls IH]; [done |].
  destruct l, l'; try done; simpl in *; rewrite ?filter_cons; simpl; auto.
Qed.

(** C9, the code at the failing input: after the teardown of the sample
    manager two of the seven registrations of [bindEvent] are still in
    place, and an alt toggle and a viewport change are still dispatched to
    the current tool. *)
Theorem unbindEvent_leaves_two_listeners :
  listeners (editor sample_world)
    = [canvas_pointerdown; window_pointermove; window_pointerup;
       commandManager_change; hostEventManager_spaceToggle;
       hostEventManager_altToggle; viewportManager_xOrYChange] /\
  listeners (editor (step sample_world call_unbindEvent))
    = [hostEventManager_altToggle; viewportManager_xOrYChange] /\
  since (step sample_world call_unbindEvent)
    (run [call_unbindEvent; alt_toggle true] sample_world)
    = [onAltToggle {| ident := 0; class := SelectTool sample_tools |} true] /\
  since (step sample_world call_unbindEvent)
    (run [call_unbindEvent; viewport_xOrYChange 3 4] sample_world)
    = [onViewportXOrYChange {| ident := 0; class := SelectTool sample_tools |} 3 4] /\
  since (step sample_world call_unbindEvent)
    (run [call_unbindEvent; pointermove quiet (at_ 0 1 1); command_change;
          space_toggle true] sample_world)
    = [].
Proof. repeat split; vm_compute; reflexivity. Qed.

(* ------------------------------------------------------------------ *)
(** ** The lifecycle of a press *)

Lemma PointerEvent_eqb_refl e : PointerEvent_eqb e e = true.
Proof.
  unfold PointerEvent_eqb. rewrite Z.eqb_refl.
  rewrite !(proj2 (FloatAxioms.Leibniz.eqb_spec _ _) eq_refl).
  by destruct (target e).
Qed.

Lemma IToolClassConstructor_eqb_refl c : IToolClassConstructor_eqb c c = true.
Proof.
  unfold IToolClassConstructor_eqb.
  by rewrite !String.eqb_refl, !Bool.eqb_reflx.
Qed.

Lemma ITool_eqb_refl t : ITool_eqb t t = true.
Proof.
  unfold ITool_eqb. by rewrite Nat.eqb_refl, IToolClassConstructor_eqb_refl.
Qed.

Lemma press_check_app cur st tr ext :
  press_check cur st (tr ++ ext)
  = match press_check cur st tr with
    | Some (cur', st') => press_check cur' st' ext
    | None => None
    end.
Proof.
  revert cur st. induction tr as [| c tr IH]; intros cur st; simpl; [done |].
  destruct (press_step cur st c) as [[cur' st'] |]; [apply IH | done].
Qed.

Ltac press_goal :=
  simpl; rewrite <- ?app_assoc;
  first [ eexists _, _; split; [reflexivity |]
        | exists []; eexists; split; [by rewrite app_nil_r |] ];
  unfold is_current; simpl;
  repeat (rewrite ?ITool_eqb_refl, ?PointerEvent_eqb_refl; simpl);
  (split; [reflexivity |]);
  unfold press_inv; simpl; repeat split; eauto; try congruence.

Lemma step_press_inv w st i :
  press_inv w st ->
  exists ext st',
    the_trace (step w i) = the_trace w ++ ext /\
    press_check (currentTool (this w)) st ext
      = Some (currentTool (this (step w i)), st') /\
    press_inv (step w i) st'.
Proof.
  intros (Ht & Hst & Hopen). destruct i;
    try (unfold step, exec, react; rewrite unbindEvent_effect;
         exists [], st; split; [by rewrite app_nil_r |]; split; [done |];
         by repeat split).
  all: destruct Ht as [t Ht].
  all: destruct w as [m s ed]; destruct m, s, ed; simpl in *; subst.
  all: unfold_ops; unfold_m; simpl.
  all: repeat case_match; simplify_eq/=.
  all: repeat match goal with
              | H : negb ?b = _ |- _ =>
                  destruct b; simpl in H; try discriminate H; clear H
              end.
  all: destruct st; try done.
  all: try (specialize (Hopen eq_refl eq_refl); try discriminate Hopen).
  all: try press_goal.
Qed.

Lemma run_press_inv inputs w st :
  press_inv w st ->
  exists ext st',
    the_trace (run inputs w) = the_trace w ++ ext /\
    press_check (currentTool (this w)) st ext
      = Some (currentTool (this (run inputs w)), st') /\
    press_inv (run inputs w) st'.
Proof.
  revert w st. induction inputs as [| i inputs IH]; intros w st Hinv.
  - exists [], st. split; [by rewrite app_nil_r |]. done.
  - destruct (step_press_inv w st i Hinv) as (ext1 & st1 & Ht1 & Hc1 & Hi1).
    destruct (IH _ _ Hi1) as (ext2 & st2 & Ht2 & Hc2 & Hi2).
    exists (ext1 ++ ext2), st2. rewrite run_cons, Ht2, Ht1, app_assoc.
    split; [done |]. rewrite press_check_app, Hc1. done.
Qed.

(** A [setActiveTool] that does not pass leaves the world as it was, but
    for a warning or the error in the trace. *)
Lemma setActiveTool_refused toolName w :
  passes toolName w = false ->
  exists tr, step w (call_setActiveTool toolName)
             = with_editor (fun ed => upd_trace (trace ed ++ tr) ed) w /\
             (tr = [] \/ tr = [console (warn_not_enable toolName)] \/
              tr = [raised (not_registered toolName)]).
Proof.
  unfold passes, step, react, exec. intros Hp.
  destruct (enableSwitchTool (this w)) eqn:Hg; simpl in Hp.
  2:{ rewrite setActiveTool_gate_closed by done. exists [].
      destruct w as [m s []]; split; [| by left].
      unfold with_editor, upd_trace; simpl. by rewrite app_nil_r. }
  destruct (is_active w toolName) eqn:Ha; simpl in Hp.
  { rewrite setActiveTool_already_active by done. exists [].
    destruct w as [m s []]; split; [| by left].
    unfold with_editor, upd_trace; simpl. by rewrite app_nil_r. }
  destruct (includes (enableToolTypes (this w)) toolName) eqn:He; simpl in Hp.
  2:{ rewrite setActiveTool_not_enabled by done.
      exists [console (warn_not_enable toolName)]. split; [done | right; by left]. }
  apply bool_decide_eq_false in Hp.
  destruct (toolCtorMap (this w) !! toolName) eqn:Hr.
  { exfalso. apply Hp. by eexists. }
  rewrite setActiveTool_not_registered by done.
  exists [raised (not_registered toolName)]. split; [done | right; by right].
Qed.

Lemma step_refused t w toolName :
  passes toolName w = false ->
  currentTool (this w) = Some t ->
  isPressing (scope w) = true ->
  startWithLeftMouse (scope w) = true ->
  currentTool (this (step w (call_setActiveTool toolName))) = Some t /\
  isPressing (scope (step w (call_setActiveTool toolName))) = true /\
  startWithLeftMouse (scope (step w (call_setActiveTool toolName))) = true /\
  listeners (editor (step w (call_setActiveTool toolName))) = listeners (editor w) /\
  exists ext, the_trace (step w (call_setActiveTool toolName)) = the_trace w ++ ext /\
              Forall (within_press t) ext.
Proof.
  intros Hn Ht Hp Hl.
  destruct (setActiveTool_refused toolName w Hn) as (tr & -> & Htr).
  repeat split; try done. exists tr. split; [done |].
  destruct Htr as [-> | [-> | ->]]; repeat constructor.
Qed.

Lemma step_same t w i :
  step w i = w ->
  currentTool (this w) = Some t ->
  isPressing (scope w) = true ->
  startWithLeftMouse (scope w) = true ->
  currentTool (this (step w i)) = Some t /\
  isPressing (scope (step w i)) = true /\
  startWithLeftMouse (scope (step w i)) = true /\
  listeners (editor (step w i)) = listeners (editor w) /\
  exists ext, the_trace (step w i) = the_trace w ++ ext /\
              Forall (within_press t) ext.
Proof.
  intros -> Ht Hp Hl. repeat split; try done.
  exists []. split; [by rewrite app_nil_r | done].
Qed.

Lemma hotkey_unbound token w :
  keybindings (editor w) !! token = None ->
  step w (hotkey token) = w.
Proof.
  intros Hb. unfold step, exec, react, keybindingManager_trigger.
  unfold_m. by rewrite Hb.
Qed.

(** A quiet input during a press of [t] leaves the press and the tool as
    they are. *)
Lemma step_quiet t w i :
  quiet_at i w = true ->
  currentTool (this w) = Some t ->
  isPressing (scope w) = true ->
  startWithLeftMouse (scope w) = true ->
  currentTool (this (step w i)) = Some t /\
  isPressing (scope (step w i)) = true /\
  startWithLeftMouse (scope (step w i)) = true /\
  listeners (editor (step w i)) = listeners (editor w) /\
  exists ext, the_trace (step w i) = the_trace w ++ ext /\
              Forall (within_press t) ext.
Proof.
  intros Hi Ht Hp Hl.
  destruct i as [e | r | r e | e | | b | b | x y | token | toolName | toolTypes | |];
    try discriminate Hi.
  8:{ (* hotkey *)
      simpl in Hi. destruct (keybindings (editor w) !! token) as [b |] eqn:Hb.
      - destruct (binding_when b w) eqn:Hw; simpl in Hi.
        + rewrite (hotkey_enabled token b w Hb Hw).
          apply step_refused; try done. by apply negb_true_iff.
        + apply step_same; try done. by apply (hotkey_disabled token b).
      - apply step_same; try done. by apply hotkey_unbound. }
  8:{ (* setActiveTool *)
      simpl in Hi. apply step_refused; try done. by apply negb_true_iff. }
  all: destruct w as [m s ed]; destruct m, s, ed; simpl in *; subst.
  all: unfold_ops; unfold_m; simpl.
  all: repeat case_match; simplify_eq/=.
  all: repeat split; try done.
  all: rewrite <- ?app_assoc;
       first [ eexists; split; [reflexivity |]
             | exists []; split; [by rewrite app_nil_r |] ].
  all: repeat constructor.
Qed.

Lemma run_quiet t mids w :
  undisturbed mids w = true ->
  currentTool (this w) = Some t ->
  isPressing (scope w) = true ->
  startWithLeftMouse (scope w) = true ->
  currentTool (this (run mids w)) = Some t /\
  isPressing (scope (run mids w)) = true /\
  startWithLeftMouse (scope (run mids w)) = true /\
  listeners (editor (run mids w)) = listeners (editor w) /\
  exists ext, the_trace (run mids w) = the_trace w ++ ext /\
              Forall (within_press t) ext.
Proof.
  revert w. induction mids as [| i mids IH]; intros w Hall Ht Hp Hl.
  - repeat split; try done. exists []. split; [by rewrite app_nil_r | done].
  - simpl in Hall. apply andb_true_iff in Hall as [Hi Hall].
    destruct (step_quiet t w i Hi Ht Hp Hl) as (Ht1 & Hp1 & Hl1 & Hls1 & ext1 & He1 & Hw1).
    destruct (IH _ Hall Ht1 Hp1 Hl1) as (Ht2 & Hp2 & Hl2 & Hls2 & ext2 & He2 & Hw2).
    rewrite run_cons. repeat split; try done; [congruence |].
    exists (ext1 ++ ext2). rewrite He2, He1, app_assoc. split; [done |].
    by apply Forall_app.
Qed.

Lemma step_timeout_accepted t r e rest w :
  timers (editor w) = e :: rest ->
  accepted r e = true ->
  currentTool (this w) = Some t ->
  step w (timeout r) = pressed t e (with_editor (upd_timers rest) w).
Proof.
  intros Htm Hacc Ht. unfold step, react, run_timer.
  apply exec_normal. unfold bind at 1. unfold get at 1. rewrite Htm.
  unfold bind at 1. unfold modify at 1.
  by rewrite (handleDown_deferred_accepted t).
Qed.

Lemma step_pointerup_release t e w :
  listening window_pointerup w = true ->
  currentTool (this w) = Some t ->
  startWithLeftMouse (scope w) = true ->
  isPressing (scope w) = true ->
  step w (pointerup e) = released t e w.
Proof.
  intros Hls Ht Hl Hp. unfold step, react, deliver.
  apply exec_normal. unfold bind at 1. unfold get at 1. unfold when_.
  rewrite Hls. by apply handleUp_release.
Qed.

(* ------------------------------------------------------------------ *)
(** ** The constructor *)

Lemma includes_head s l : includes (s :: l) s = true.
Proof. simpl. by rewrite String.eqb_refl. Qed.

Lemma registered_unstarted ed c w : unstarted ed w -> unstarted ed (registered c w).
Proof. intros (? & ? & ? & ? & ?). repeat split; simpl; assumption. Qed.

Lemma registered_lookup c w :
  is_Some (toolCtorMap (this (registered c w)) !! static_type c).
Proof. simpl. rewrite lookup_insert_eq. by eexists. Qed.

Lemma registered_lookup_mono c w n :
  is_Some (toolCtorMap (this w) !! n) ->
  is_Some (toolCtorMap (this (registered c w)) !! n).
Proof.
  intros Hn. simpl. apply lookup_insert_is_Some.
  destruct (decide (static_type c = n)); auto.
Qed.

Lemma bindEvent_effect w : bindEvent w = (Normal bindEvent_teardown, bound w).
Proof.
  unfold bindEvent, addListener, bound. unfold_m.
  destruct w as [m s ed]; destruct ed; simpl.
  unfold with_editor; simpl. by rewrite <- !app_assoc.
Qed.

Lemma setEnableHotKeyTools_effect toolTypes w :
  setEnableHotKeyTools toolTypes w = (Normal tt, enabled toolTypes w).
Proof. reflexivity. Qed.

Lemma bind_effect {A B} (m : M A) (k : A -> M B) w a w' :
  m w = (Normal a, w') -> bind m k w = k a w'.
Proof. unfold bind. by intros ->. Qed.

Lemma constructor_stage1 T w :
  constructor T w = after_registration T (register_all T w).
Proof.
  unfold constructor, register_all, after_registration.
  do 8 (erewrite bind_effect; [| apply registerToolCtor_effect]).
  reflexivity.
Qed.

Lemma register_all_unstarted ed T w : unstarted ed w -> unstarted ed (register_all T w).
Proof. intros Hw. unfold register_all. by do 8 apply registered_unstarted. Qed.

Lemma register_all_lookup T w :
  is_Some (toolCtorMap (this (register_all T w)) !! static_type (SelectTool T)).
Proof.
  unfold register_all. do 7 apply registered_lookup_mono. apply registered_lookup.
Qed.

Lemma after_registration_effect ed T c w :
  unstarted ed w ->
  toolCtorMap (this w) !! static_type (SelectTool T) = Some c ->
  after_registration T w
  = (Normal tt,
     with_this (upd_unbindEvent bindEvent_teardown)
       (bound (switched c
          (enabled [ static_type (SelectTool T); static_type (DrawRectTool T);
                     static_type (DrawEllipseTool T); static_type (DrawPathTool T);
                     static_type (DrawLineTool T); static_type (DrawTextTool T);
                     static_type (DragCanvasTool T) ] w)))).
Proof.
  intros (Hcur & Hgate & _) Hc. unfold after_registration.
  erewrite bind_effect; [| apply setEnableHotKeyTools_effect].
  erewrite bind_effect.
  2:{ apply (setActiveTool_switches _ c).
      - exact Hgate.
      - unfold is_active, getActiveToolName. simpl. by rewrite Hcur.
      - apply includes_head.
      - exact Hc. }
  erewrite bind_effect; [| apply bindEvent_effect].
  reflexivity.
Qed.

(** The constructor returns normally and leaves a manager with an active
    tool, the first object built, of the class registered under
    [SelectTool.type]; no press is open, the gate is open and the seven
    listeners are registered. *)
Lemma new_ToolManager_ready T ed :
  exists c,
    fst (new_ToolManager T ed) = Normal tt /\
    currentTool (this (snd (new_ToolManager T ed)))
      = Some {| ident := allocated ed; class := c |} /\
    scope (snd (new_ToolManager T ed))
      = {| isPressing := false; startPos := IPoint.mk 0 0;
           startWithLeftMouse := false |} /\
    enableSwitchTool (this (snd (new_ToolManager T ed))) = true /\
    listeners (editor (snd (new_ToolManager T ed)))
      = listeners ed ++
        [canvas_pointerdown; window_pointermove; window_pointerup;
         commandManager_change; hostEventManager_spaceToggle;
         hostEventManager_altToggle; viewportManager_xOrYChange].
Proof.
  unfold new_ToolManager. rewrite constructor_stage1.
  match goal with |- context [register_all T ?w] => set (w0 := w) end.
  assert (unstarted ed w0) as Hw0 by (by repeat split).
  pose proof (register_all_unstarted ed T w0 Hw0) as Hw8.
  destruct (register_all_lookup T w0) as [c Hc].
  rewrite (after_registration_effect ed T c _ Hw8 Hc).
  revert Hw8 Hc. generalize (register_all T w0). clear w0 Hw0.
  intros w8 (Hcur & Hgate & Hscope & Halloc & Hls) Hc.
  exists c. simpl. rewrite Halloc, Hgate, Hls. done.
Qed.

Lemma new_ToolManager_press_inv T ed :
  press_inv (snd (new_ToolManager T ed)) no_press.
Proof.
  destruct (new_ToolManager_ready T ed) as (c & _ & Hc & Hs & _).
  unfold press_inv. rewrite Hc, Hs. simpl. repeat split; try done.
Qed.

(* ------------------------------------------------------------------ *)
(** ** Lifecycle pairing *)

(** C3, as far as the code goes.  On a constructed manager, whatever the
    inputs, the trace of calls passes [press_check] from the tool the
    constructor activated to the tool that is current at the end, and ends
    with no [afterEnd] due: [onStart], [onDrag] and [onEnd] go to the tool
    that is current when they are made, [onDrag] and [onEnd] are made only
    while a press opened by an [onStart] is pending, and the call after
    each [onEnd] is the [afterEnd] of the same tool for the same event.
    The calls of a press all go to one tool object - [onStart], drags of
    that tool only, then exactly one [onEnd] directly followed by
    [afterEnd], with no construction, activation or deactivation of any
    tool in between - when every input between the deferred body of the
    accepted pointer-down and the pointer-up is quiet when it arrives:
    pointer moves, pointer-downs, the four notifications,
    [setEnableHotKeyTools], and [setActiveTool] calls and hotkeys that are
    refused. *)
Theorem press_lifecycle (T : ToolClasses) (ed : Editor) (inputs : list Input)
    (t : ITool) (r : Readings) (e e_up : PointerEvent)
    (rest : list PointerEvent) (mids : list Input) (w : World) :
  (exists st,
     press_check (currentTool (this (snd (new_ToolManager T ed)))) no_press
       (since (snd (new_ToolManager T ed)) (run inputs (snd (new_ToolManager T ed))))
     = Some (currentTool (this (run inputs (snd (new_ToolManager T ed)))), st) /\
     settled st = true) /\
  (currentTool (this w) = Some t ->
   timers (editor w) = e :: rest ->
   accepted r e = true ->
   listening window_pointerup w = true ->
   undisturbed mids (step w (timeout r)) = true ->
   exists mid,
     since w (run (timeout r :: mids ++ [pointerup e_up]) w)
     = onStart t e :: mid ++
       [enableDragBySpace;
        onEnd t e_up (isDragging (run (timeout r :: mids) w));
        afterEnd t e_up] /\
     Forall (within_press t) mid /\
     currentTool (this (run (timeout r :: mids ++ [pointerup e_up]) w)) = Some t /\
     isPressing (scope (run (timeout r :: mids ++ [pointerup e_up]) w)) = false).
Proof.
  split.
  - destruct (run_press_inv inputs _ _ (new_ToolManager_press_inv T ed))
      as (ext & st & Hext & Hcheck & _ & Hst & _).
    exists st. by rewrite (since_app _ _ _ Hext), Hcheck.
  - intros Ht Htm Hacc Hup Hquiet.
    rewrite !run_cons, run_app.
    rewrite (step_timeout_accepted t r e rest w Htm Hacc Ht) in *.
    set (w1 := pressed t e (with_editor (upd_timers rest) w)) in *.
    destruct (run_quiet t mids w1 Hquiet Ht eq_refl eq_refl)
      as (Ht2 & Hp2 & Hl2 & Hls2 & mid & Hmid & Hwithin).
    assert (listening window_pointerup (run mids w1) = true) as Hup2.
    { unfold listening. rewrite Hls2. exact Hup. }
    change (run [pointerup e_up] (run mids w1))
      with (step (run mids w1) (pointerup e_up)).
    rewrite (step_pointerup_release t e_up _ Hup2 Ht2 Hl2 Hp2).
    exists mid. split; [| by repeat split].
    apply since_app. unfold the_trace in *. simpl. rewrite Hmid. simpl.
    rewrite <- !app_assoc. reflexivity.
Qed.

Lemma press_lifecycle_witness :
  exists mid,
    since (step sample_world (pointerdown (at_ 0 0 0)))
      (run (timeout quiet ::
            [call_setActiveTool "pathSelect"; pointermove quiet (at_ 0 10 10);
             hotkey 1%nat; call_setActiveTool "drawRect"; alt_toggle true] ++
            [pointerup (at_ 0 10 10)])
         (step sample_world (pointerdown (at_ 0 0 0))))
    = onStart sample_select (at_ 0 0 0) :: mid ++
      [enableDragBySpace; onEnd sample_select (at_ 0 10 10) true;
       afterEnd sample_select (at_ 0 10 10)] /\
    Forall (within_press sample_select) mid.
Proof.
  destruct (press_lifecycle sample_tools empty_editor [] sample_select quiet
              (at_ 0 0 0) (at_ 0 10 10) []
              [call_setActiveTool "pathSelect"; pointermove quiet (at_ 0 10 10);
               hotkey 1%nat; call_setActiveTool "drawRect"; alt_toggle true]
              (step sample_world (pointerdown (at_ 0 0 0)))) as [_ H].
  destruct (H eq_refl eq_refl eq_refl eq_refl eq_refl) as (mid & Hs & Hw & _).
  exists mid. split; [exact Hs | exact Hw].
Defined.

(** C3 as stated fails: the gate closes only once the drag threshold is
    exceeded, so a hotkey pressed between the pointer-down and the
    pointer-up switches the tool.  The tool that received [onStart] is
    deactivated without [onEnd], and the new tool receives [onEnd] and
    [afterEnd] without ever having received [onStart]. *)
Lemma press_lifecycle_counterexample :
  since sample_world
    (run [pointerdown (at_ 0 0 0); timeout quiet; hotkey 1%nat;
          pointerup (at_ 0 0 0)] sample_world)
  = [onStart sample_select (at_ 0 0 0);
     new_tool sample_rect; onInactive sample_select;
     setCursor "default"; onActive sample_rect; emit (switchTool "drawRect");
     enableDragBySpace; onEnd sample_rect (at_ 0 0 0) false;
     afterEnd sample_rect (at_ 0 0 0)] /\
  lifecycle_paired [] []
    (since sample_world
       (run [pointerdown (at_ 0 0 0); timeout quiet; hotkey 1%nat;
             pointerup (at_ 0 0 0)] sample_world)) = false.
Proof. split; vm_compute; reflexivity. Qed.

(** What [press_check] refuses: a trace that stops at [onEnd], a call
    between [onEnd] and [afterEnd], an [afterEnd] for another tool or
    another event, a drag of a tool that is not current, a drag or an end
    outside a press.  The trace of the switch during a press passes: each
    call goes to the tool current at the time. *)
Example press_check_refuses :
  (settled <$> (snd <$> press_check (Some sample_select) no_press
     [onStart sample_select (at_ 0 0 0); enableDragBySpace;
      onEnd sample_select (at_ 0 1 1) false])) = Some false /\
  press_check (Some sample_select) no_press
    [onStart sample_select (at_ 0 0 0); onEnd sample_select (at_ 0 1 1) false;
     setCursor "default"; afterEnd sample_select (at_ 0 1 1)] = None /\
  press_check (Some sample_select) no_press
    [onStart sample_select (at_ 0 0 0); onEnd sample_select (at_ 0 1 1) false;
     afterEnd sample_rect (at_ 0 1 1)] = None /\
  press_check (Some sample_select) no_press
    [onStart sample_select (at_ 0 0 0); onEnd sample_select (at_ 0 1 1) false;
     afterEnd sample_select (at_ 0 2 2)] = None /\
  press_check (Some sample_select) no_press
    [onStart sample_select (at_ 0 0 0); onDrag sample_rect (at_ 0 9 9)] = None /\
  press_check (Some sample_select) no_press [onDrag sample_select (at_ 0 9 9)] = None /\
  press_check (Some sample_select) no_press
    [onEnd sample_select (at_ 0 1 1) false; afterEnd sample_select (at_ 0 1 1)] = None /\
  press_check (Some sample_select) no_press
    (since sample_world
       (run [pointerdown (at_ 0 0 0); timeout quiet; hotkey 1%nat;
             pointerup (at_ 0 0 0)] sample_world))
  = Some (Some sample_rect, no_press).
Proof. repeat split; vm_compute; reflexivity. Qed.

(* ------------------------------------------------------------------ *)
(** ** The constructed manager is consistent *)

Lemma consistent_ext w w' tr :
  the_trace w' = the_trace w ++ tr ->
  currentTool (this w') = currentTool (this w) ->
  forallb (fun c => negb (is_switch_call c)) tr = true ->
  consistent w -> consistent w'.
Proof.
  intros Htr Hcur Hall [Hs Ha]. unfold consistent, active_tools in *.
  rewrite Htr, Hcur, single_active_app, fold_left_app, Hs, Ha. simpl.
  rewrite fold_activity_others, single_active_others by done.
  split; [| done]. destruct (currentTool (this w)); reflexivity.
Qed.

Lemma consistent_registered c w : consistent w -> consistent (registered c w).
Proof.
  apply (consistent_ext w (registered c w)
           ((if bool_decide (is_Some (toolCtorMap (this w) !! static_type c))
             then [console (warn_had_exit (static_type c))] else []) ++
            (if bool_decide (static_hotkey c ∈ hotkeySet (this w))
             then [console (log_same_hotkey (static_hotkey c))] else [])));
    [reflexivity | reflexivity |].
  by repeat case_bool_decide.
Qed.

(** A manager constructed over an editor in whose trace no tool is
    active is consistent. *)
Lemma new_ToolManager_consistent T ed :
  single_active [] (trace ed) = true ->
  active_tools (trace ed) = [] ->
  consistent (snd (new_ToolManager T ed)).
Proof.
  intros Hs Ha. unfold new_ToolManager. rewrite constructor_stage1.
  match goal with |- context [register_all T ?w] => set (w0 := w) end.
  assert (consistent w0) as Hw0 by (by split).
  assert (unstarted ed w0) as Hu0 by (by repeat split).
  pose proof (register_all_unstarted ed T w0 Hu0) as Hw8.
  destruct (register_all_lookup T w0) as [c Hc].
  rewrite (after_registration_effect ed T c _ Hw8 Hc).
  assert (consistent (register_all T w0)) as Hc8.
  { unfold register_all. by do 8 apply consistent_registered. }
  revert Hc8. generalize (register_all T w0). clear. intros w8 Hc8. simpl.
  match goal with
  | |- consistent (with_this _ (bound (switched c ?w))) =>
      apply (consistent_ext (switched c w) _ []);
        [unfold the_trace; simpl; by rewrite app_nil_r | reflexivity | reflexivity |];
      apply consistent_switched;
      apply (consistent_ext w8 _ [emit (changeEnableTools (enableToolTypes (this w)))]);
        [reflexivity | reflexivity | reflexivity | exact Hc8]
  end.
Qed.

(* ------------------------------------------------------------------ *)
(** ** The scenarios of the specification, on the sample manager *)

(** Scenario A: the hotkey of an enabled tool switches to it, with one
    [switchTool] broadcast. *)
Example scenario_A :
  getActiveToolName (run [hotkey 1%nat] sample_world) = Some "drawRect" /\
  since sample_world (run [hotkey 1%nat] sample_world)
  = [new_tool sample_rect; onInactive sample_select; setCursor "default";
     onActive sample_rect; emit (switchTool "drawRect")].
Proof. split; vm_compute; reflexivity. Qed.

(** Scenario B: with [dragBlockStep = 5], a press at (0,0), moves to
    (2,2), (10,10) and (12,9), and the release. *)
Example scenario_B :
  since sample_world
    (run [pointerdown (at_ 0 0 0); timeout quiet;
          pointermove quiet (at_ 0 2 2);
          pointermove quiet (at_ 0 10 10);
          pointermove quiet (at_ 0 12 9);
          pointerup (at_ 0 12 9)] sample_world)
  = [onStart sample_select (at_ 0 0 0);
     disableDragBySpace; onDrag sample_select (at_ 0 10 10);
     disableDragBySpace; onDrag sample_select (at_ 0 12 9);
     enableDragBySpace; onEnd sample_select (at_ 0 12 9) true;
     afterEnd sample_select (at_ 0 12 9)] /\
  enableSwitchTool
    (this (run [pointerdown (at_ 0 0 0); timeout quiet;
                pointermove quiet (at_ 0 2 2)] sample_world)) = true /\
  enableSwitchTool
    (this (run [pointerdown (at_ 0 0 0); timeout quiet;
                pointermove quiet (at_ 0 2 2);
                pointermove quiet (at_ 0 10 10)] sample_world)) = false /\
  enableSwitchTool
    (this (run [pointerdown (at_ 0 0 0); timeout quiet;
                pointermove quiet (at_ 0 2 2);
                pointermove quiet (at_ 0 10 10);
                pointermove quiet (at_ 0 12 9);
                pointerup (at_ 0 12 9)] sample_world)) = true.
Proof. repeat split; vm_compute; reflexivity. Qed.

(** Scenario C: a press with the secondary button. *)
Example scenario_C :
  since sample_world
    (run [pointerdown (at_ 2 0 0); timeout quiet;
          pointermove quiet (at_ 2 30 30); pointerup (at_ 2 30 30)] sample_world)
  = [onMoveExcludeDrag sample_select (at_ 2 30 30) false].
Proof. vm_compute; reflexivity. Qed.

(** Scenario D: the hotkey of a tool that is not enabled. *)
Example scenario_D :
  getActiveToolName
    (run [call_setEnableHotKeyTools ["select"]; hotkey 1%nat] sample_world)
  = Some "select" /\
  since sample_world
    (run [call_setEnableHotKeyTools ["select"]; hotkey 1%nat] sample_world)
  = [emit (changeEnableTools ["select"])].
Proof. split; vm_compute; reflexivity. Qed.

(* ================================================================== *)
(** * Further properties of the code *)

(* ------------------------------------------------------------------ *)
(** ** Click or drag *)

Lemma exceedsb_exceeds r start e : exceedsb r start e = true <-> exceeds r start e.
Proof. unfold exceedsb. symmetry. apply exceeds_gtb. Qed.

Lemma handleMoves_cons r e moves w :
  handleMoves ((r, e) :: moves) w = handleMoves moves (exec (handleMove r e) w).
Proof. reflexivity. Qed.

Lemma handleMoves_press t moves w :
  currentTool (this w) = Some t ->
  isPressing (scope w) = true ->
  startWithLeftMouse (scope w) = true ->
  the_trace (handleMoves moves w)
    = the_trace w ++
      press_moves_calls t (startPos (scope w)) (_isDragging (this w)) moves /\
  _isDragging (this (handleMoves moves w))
    = drag_reached (startPos (scope w)) (_isDragging (this w)) moves /\
  scope (handleMoves moves w) = scope w /\
  currentTool (this (handleMoves moves w)) = Some t /\
  enableSwitchTool (this (handleMoves moves w))
    = match press_moves_calls t (startPos (scope w)) (_isDragging (this w)) moves with
      | [] => enableSwitchTool (this w)
      | _ => false
      end.
Proof.
  revert w. induction moves as [| [r e] moves IH]; intros w Ht Hp Hl.
  - unfold drag_reached. simpl. rewrite app_nil_r, orb_false_r. done.
  - rewrite handleMoves_cons. unfold drag_reached. simpl.
    destruct (_isDragging (this w) || exceedsb r (startPos (scope w)) e) eqn:Hd.
    + assert (_isDragging (this w) = true \/ exceeds r (startPos (scope w)) e) as Hd'.
      { apply orb_true_iff in Hd as [Hd | Hd]; [by left | right].
        by apply exceedsb_exceeds. }
      rewrite (exec_normal _ _ _ (handleMove_drag t r e w Ht Hp Hl Hd')).
      destruct (IH (dragged t r e w) Ht Hp Hl) as (H1 & H2 & H3 & H4 & H5).
      rewrite H1, H2, H3, H4, H5. unfold drag_reached, the_trace. simpl.
      rewrite <- app_assoc. simpl.
      apply orb_true_iff in Hd as [-> | ->]; simpl; rewrite ?orb_true_r;
        repeat split; by destruct (press_moves_calls _ _ _ _).
    + apply orb_false_iff in Hd as [Hd Hx].
      assert (~ exceeds r (startPos (scope w)) e) as Hx'.
      { rewrite <- exceedsb_exceeds. by rewrite Hx. }
      rewrite (exec_normal _ _ _ (handleMove_within t r e w Ht Hp Hl Hd Hx')).
      destruct (IH (moved r w) Ht Hp Hl) as (H1 & H2 & H3 & H4 & H5).
      rewrite H1, H2, H3, H4, H5. unfold drag_reached. simpl.
      rewrite Hd, Hx. done.
Qed.

(** X1: a press is a click or a drag by its pointer moves alone.  After
    an accepted pointer-down on the tool [t], any pointer moves and the
    pointer-up, the calls are [onStart], then nothing for the moves up to
    the first one beyond [dragBlockStep] - by the test of [handleMove],
    [Math.abs(dx) > dragBlockStep || Math.abs(dy) > dragBlockStep] on
    numbers - and [disableDragBySpace] and [onDrag] for that move and
    every later one, then [enableDragBySpace], [onEnd] and [afterEnd]; the
    flag of [onEnd] is true exactly when some move passed that test.  Afterwards no press is open, nothing
    is dragging and the gate is open. *)
Theorem press_is_click_or_drag (t : ITool) (r : Readings) (e e_up : PointerEvent)
    (moves : list (Readings * PointerEvent)) (w : World) :
  currentTool (this w) = Some t ->
  accepted r e = true ->
  since w (exec (handleUp e_up) (handleMoves moves (exec (handleDown_deferred r e) w)))
    = onStart t e ::
      press_moves_calls t (IPoint.mk (clientX e) (clientY e)) false moves ++
      [enableDragBySpace;
       onEnd t e_up
         (existsb (fun m => exceedsb (fst m) (IPoint.mk (clientX e) (clientY e)) (snd m))
            moves);
       afterEnd t e_up] /\
  isPressing (scope (exec (handleUp e_up)
    (handleMoves moves (exec (handleDown_deferred r e) w)))) = false /\
  isDragging (exec (handleUp e_up)
    (handleMoves moves (exec (handleDown_deferred r e) w))) = false /\
  enableSwitchTool (this (exec (handleUp e_up)
    (handleMoves moves (exec (handleDown_deferred r e) w)))) = true.
Proof.
  intros Ht Hacc.
  rewrite (exec_normal _ _ _ (handleDown_deferred_accepted t r e w Hacc Ht)).
  destruct (handleMoves_press t moves (pressed t e w) Ht eq_refl eq_refl)
    as (H1 & H2 & H3 & H4 & _).
  assert (startWithLeftMouse (scope (handleMoves moves (pressed t e w))) = true) as Hl
    by (by rewrite H3).
  assert (isPressing (scope (handleMoves moves (pressed t e w))) = true) as Hp
    by (by rewrite H3).
  rewrite (exec_normal _ _ _ (handleUp_release t e_up _ H4 Hl Hp)).
  split; [| by repeat split].
  apply since_app. unfold the_trace in *. simpl. rewrite H1, H2. simpl.
  rewrite <- !app_assoc. reflexivity.
Qed.

Lemma press_is_click_or_drag_witness :
  since sample_world
    (exec (handleUp (at_ 0 3 9))
       (handleMoves [(quiet, at_ 0 5 5); (quiet, at_ 0 0 (-6)); (quiet, at_ 0 1 1)]
          (exec (handleDown_deferred quiet (at_ 0 0 0)) sample_world)))
  = [onStart sample_select (at_ 0 0 0);
     disableDragBySpace; onDrag sample_select (at_ 0 0 (-6));
     disableDragBySpace; onDrag sample_select (at_ 0 1 1);
     enableDragBySpace; onEnd sample_select (at_ 0 3 9) true;
     afterEnd sample_select (at_ 0 3 9)].
Proof.
  destruct (press_is_click_or_drag sample_select quiet (at_ 0 0 0) (at_ 0 3 9)
              [(quiet, at_ 0 5 5); (quiet, at_ 0 0 (-6)); (quiet, at_ 0 1 1)]
              sample_world eq_refl eq_refl) as [H _].
  exact H.
Defined.

(** The threshold test on numbers: a fractional displacement counts, a
    displacement equal to the step does not, a step that is [NaN] is never
    exceeded, and a difference that rounds down to the step does not
    exceed it. *)
Example exceedsb_on_numbers :
  exceedsb quiet (IPoint.mk 0 0) (at_ 0 5.5 0) = true /\
  exceedsb quiet (IPoint.mk 0.5 0) (at_ 0 5.5 0) = false /\
  exceedsb quiet (IPoint.mk 0 0) (at_ 0 0 (-5.25)) = true /\
  exceedsb {| isEditing := false; isSpacePressing := false; dragBlockStep := nan;
              getCursorXY := IPoint.mk 0 0 |} (IPoint.mk 0 0) (at_ 0 100 100) = false /\
  exceedsb far (IPoint.mk (-1) 0) (at_ 0 9007199254740992 0) = false.
Proof. repeat split; vm_compute; reflexivity. Qed.

(* ------------------------------------------------------------------ *)
(** ** A pointer-down during a press *)

(** X2: the deferred body of [handleDown] does not look at the press in
    progress.  Whatever the state, a rejected pointer-down followed by a
    pointer-up calls nothing: a tool that had received [onStart] gets no
    [onEnd], and a gate closed by the drag stays closed until that
    pointer-up reopens it.  An accepted one calls [onStart] again, from a
    new start position and with dragging reset, without any [onEnd] for
    the press it replaces. *)
Theorem pointerdown_during_press (t : ITool) (r : Readings) (e e_up : PointerEvent)
    (w : World) :
  currentTool (this w) = Some t ->
  (accepted r e = false ->
   since w (exec (handleUp e_up) (exec (handleDown_deferred r e) w)) = [] /\
   isPressing (scope (exec (handleDown_deferred r e) w)) = false /\
   enableSwitchTool (this (exec (handleDown_deferred r e) w))
     = enableSwitchTool (this w) /\
   enableSwitchTool (this (exec (handleUp e_up) (exec (handleDown_deferred r e) w)))
     = true) /\
  (accepted r e = true ->
   since w (exec (handleDown_deferred r e) w) = [onStart t e] /\
   startPos (scope (exec (handleDown_deferred r e) w))
     = IPoint.mk (clientX e) (clientY e) /\
   isDragging (exec (handleDown_deferred r e) w) = false /\
   enableSwitchTool (this (exec (handleDown_deferred r e) w))
     = enableSwitchTool (this w)).
Proof.
  intros Ht. split; intros Hacc.
  - rewrite (exec_normal _ _ _ (handleDown_deferred_rejected r e w Hacc)).
    rewrite (exec_normal _ _ _ (handleUp_other_button e_up (idled w) eq_refl)).
    split; [| done].
    apply since_app. unfold the_trace. simpl. by rewrite app_nil_r.
  - rewrite (exec_normal _ _ _ (handleDown_deferred_accepted t r e w Hacc Ht)).
    split; [by apply since_app | done].
Qed.

Lemma pointerdown_during_press_witness :
  since (run [pointerdown (at_ 0 0 0); timeout quiet; pointermove quiet (at_ 0 9 9)]
           sample_world)
    (exec (handleUp (at_ 0 9 9))
       (exec (handleDown_deferred quiet (at_ 2 9 9))
          (run [pointerdown (at_ 0 0 0); timeout quiet; pointermove quiet (at_ 0 9 9)]
             sample_world))) = [] /\
  enableSwitchTool
    (this (exec (handleDown_deferred quiet (at_ 2 9 9))
       (run [pointerdown (at_ 0 0 0); timeout quiet; pointermove quiet (at_ 0 9 9)]
          sample_world))) = false.
Proof.
  destruct (pointerdown_during_press sample_select quiet (at_ 2 9 9) (at_ 0 9 9)
              (run [pointerdown (at_ 0 0 0); timeout quiet; pointermove quiet (at_ 0 9 9)]
                 sample_world) eq_refl) as [H _].
  destruct (H eq_refl) as (H1 & _ & H3 & _).
  split; [exact H1 | exact H3].
Defined.

(* ------------------------------------------------------------------ *)
(** ** What every reachable state satisfies *)

Ltac session_goal :=
  simpl; rewrite <- ?app_assoc;
  first [ eexists; split; [reflexivity |]
        | exists []; split; [by rewrite app_nil_r |] ];
  (split; [simpl; reflexivity |]);
  unfold session_inv; simpl; repeat split; eauto; try congruence; try tauto.

Lemma step_session_inv w i :
  session_inv w ->
  exists ext,
    the_trace (step w i) = the_trace w ++ ext /\
    forallb (fun c => negb (is_missing_tool_error c)) ext = true /\
    session_inv (step w i).
Proof.
  intros (Ht & Hpl & Hdrag). destruct i;
    try (unfold step, exec, react; rewrite unbindEvent_effect;
         exists []; split; [by rewrite app_nil_r |]; split; [done |];
         exact (conj Ht (conj Hpl Hdrag))).
  all: destruct Ht as [t Ht].
  all: destruct w as [m s ed]; destruct m, s, ed; simpl in *; subst.
  all: unfold_ops; unfold_m; simpl.
  all: repeat case_match; simplify_eq/=.
  all: repeat match goal with
              | H : negb ?b = _ |- _ =>
                  destruct b; simpl in H; try discriminate H; clear H
              end.
  all: try (specialize (Hpl eq_refl); try discriminate Hpl).
  all: try session_goal.
  all: try (destruct (Hdrag eq_refl); session_goal).
  all: exfalso; intuition congruence.
Qed.

Lemma run_session_inv inputs w :
  session_inv w ->
  exists ext,
    the_trace (run inputs w) = the_trace w ++ ext /\
    forallb (fun c => negb (is_missing_tool_error c)) ext = true /\
    session_inv (run inputs w).
Proof.
  revert w. induction inputs as [| i inputs IH]; intros w Hinv.
  - exists []. split; [by rewrite app_nil_r | done].
  - destruct (step_session_inv w i Hinv) as (ext1 & Ht1 & Hn1 & Hi1).
    destruct (IH _ Hi1) as (ext2 & Ht2 & Hn2 & Hi2).
    exists (ext1 ++ ext2). rewrite run_cons, Ht2, Ht1, app_assoc.
    split; [done |]. by rewrite forallb_app, Hn1, Hn2.
Qed.

Lemma registered_registering ed k c w :
  registering ed k w -> registering ed (S k) (registered c w).
Proof.
  intros (Hu & Hd & He & Htm & Hn & Hk & Hreg).
  split; [by apply registered_unstarted |].
  repeat split; try done.
  - simpl. rewrite Hn. lia.
  - rewrite seq_S. simpl. by rewrite Hk, Hn.
  - intros n c'. simpl. rewrite lookup_insert.
    case_decide; [by intros [= <-] | apply Hreg].
Qed.

Lemma register_all_registering ed T w :
  registering ed 0 w -> registering ed 8 (register_all T w).
Proof. intros Hw. unfold register_all. by do 8 apply registered_registering. Qed.

(** The world the constructor leaves, in terms of the world [w8] after its
    eight registrations. *)
Lemma new_ToolManager_shape T ed :
  exists c w8,
    w8 = register_all T (fresh_world ed) /\
    registering ed 8 w8 /\
    toolCtorMap (this w8) !! static_type (SelectTool T) = Some c /\
    new_ToolManager T ed
    = (Normal tt,
       with_this (upd_unbindEvent bindEvent_teardown)
         (bound (switched c (enabled (enabled_at_start T) w8)))).
Proof.
  unfold new_ToolManager. rewrite constructor_stage1.
  match goal with |- context [register_all T ?w] => change w with (fresh_world ed) end.
  assert (registering ed 0 (fresh_world ed)) as Hw0 by (by repeat split).
  pose proof (register_all_registering ed T _ Hw0) as Hw8.
  destruct (register_all_lookup T (fresh_world ed)) as [c Hc].
  exists c, (register_all T (fresh_world ed)).
  split; [done |]. split; [done |]. split; [done |].
  by apply (after_registration_effect ed); [apply Hw8 |].
Qed.

Lemma new_ToolManager_session_inv T ed : session_inv (snd (new_ToolManager T ed)).
Proof.
  destruct (new_ToolManager_shape T ed)
    as (c & w8 & _ & ((Hcur & Hgate & Hscope & Halloc & Hls) & Hd & _) & Hc & ->).
  unfold session_inv. simpl. rewrite Hd. repeat split; done.
Qed.


(** X4: on a constructed manager a tool is active after every input, and
    the two errors for a missing tool ("there is no active tool" of
    [handleDown], the one of [handleMove] and [handleUp]) are never
    raised, whatever the inputs: the only error a constructed manager can
    raise is the one of [setActiveTool] for an unregistered type. *)
Theorem missing_tool_unreachable (T : ToolClasses) (ed : Editor)
    (inputs : list Input) :
  is_Some (getActiveToolName (run inputs (snd (new_ToolManager T ed)))) /\
  forallb (fun c => negb (is_missing_tool_error c))
    (since (snd (new_ToolManager T ed)) (run inputs (snd (new_ToolManager T ed))))
  = true.
Proof.
  destruct (run_session_inv inputs _ (new_ToolManager_session_inv T ed))
    as (ext & Hext & Hno & ([t Ht] & _)).
  split.
  - unfold getActiveToolName. rewrite Ht. by eexists.
  - by rewrite (since_app _ _ _ Hext).
Qed.

(** X5: in every state a constructed manager reaches, [isPressing] is
    set only together with [startWithLeftMouse] - so the early return of
    [handleMove] for a press not begun with the left button is never
    taken - and [isDragging()] is true only during a press and with the
    switch gate closed, so that [setActiveTool] does nothing while
    [isDragging()] is true. *)
Theorem drag_session_invariants (T : ToolClasses) (ed : Editor)
    (inputs : list Input) (toolName : string) :
  (isPressing (scope (run inputs (snd (new_ToolManager T ed)))) = true ->
   startWithLeftMouse (scope (run inputs (snd (new_ToolManager T ed)))) = true) /\
  (isDragging (run inputs (snd (new_ToolManager T ed))) = true ->
   isPressing (scope (run inputs (snd (new_ToolManager T ed)))) = true /\
   enableSwitchTool (this (run inputs (snd (new_ToolManager T ed)))) = false /\
   setActiveTool toolName (run inputs (snd (new_ToolManager T ed)))
     = (Normal tt, run inputs (snd (new_ToolManager T ed)))).
Proof.
  destruct (run_session_inv inputs _ (new_ToolManager_session_inv T ed))
    as (_ & _ & _ & (_ & Hpl & Hdrag)).
  split; [exact Hpl |]. intros Hd. destruct (Hdrag Hd) as [Hp Hg].
  split; [done |]. split; [done |]. by apply setActiveTool_gate_closed.
Qed.

Lemma drag_session_invariants_witness :
  setActiveTool "drawRect"
    (run [pointerdown (at_ 0 0 0); timeout quiet; pointermove quiet (at_ 0 0 7)]
       (snd (new_ToolManager sample_tools empty_editor)))
  = (Normal tt,
     run [pointerdown (at_ 0 0 0); timeout quiet; pointermove quiet (at_ 0 0 7)]
       (snd (new_ToolManager sample_tools empty_editor))).
Proof.
  destruct (drag_session_invariants sample_tools empty_editor
              [pointerdown (at_ 0 0 0); timeout quiet; pointermove quiet (at_ 0 0 7)]
              "drawRect") as [_ H].
  destruct (H eq_refl) as (_ & _ & Hs). exact Hs.
Defined.

(* ------------------------------------------------------------------ *)
(** ** Broadcasts *)

Lemma omap_others (sel : Call -> option string) tr :
  (forall c, is_switch_call c = false -> sel c = None) ->
  forallb (fun c => negb (is_switch_call c)) tr = true ->
  omap sel tr = [].
Proof.
  intros Hsel. induction tr as [| c tr IH]; simpl; [done |].
  rewrite andb_true_iff, negb_true_iff. intros [Hc Htr].
  rewrite (Hsel c Hc). by apply IH.
Qed.

Lemma step_setActiveTool_trace toolName w :
  exists ext,
    the_trace (step w (call_setActiveTool toolName)) = the_trace w ++ ext /\
    omap broadcast_type ext
      = (if passes toolName w then option_list (built_type toolName w) else []) /\
    omap constructed_type ext = omap broadcast_type ext /\
    omap activated_type ext = omap broadcast_type ext.
Proof.
  destruct (passes toolName w) eqn:Hp.
  - destruct (step_setActiveTool_passes _ _ Hp) as (c & Hc & ->).
    exists (switch_calls (currentTool (this w))
              {| ident := allocated (editor w); class := c |}).
    split; [done |]. unfold built_type. rewrite Hc.
    unfold switch_calls. destruct (currentTool (this w)); done.
  - destruct (passes_false _ _ Hp) as (tr & Heq & Htr).
    exists tr. unfold step, react. rewrite Heq. split; [done |].
    rewrite !omap_others; try done;
      intros c Hc; destruct c; try done;
      match goal with ev : Events |- _ => by destruct ev end.
Qed.

(** X6: for any sequence of [setActiveTool] calls from any state, the
    [switchTool] broadcasts are, in order, exactly the types of the tools
    built by the calls that passed the four checks: one broadcast per
    switch, none for a refused or failing call.  Each of these calls also
    constructs exactly one tool and activates exactly one, of that type: a
    switch back to an earlier type builds a new object. *)
Theorem one_broadcast_per_switch (names : list string) (w : World) :
  omap broadcast_type (since w (run (call_setActiveTool <$> names) w))
    = switches names w /\
  omap constructed_type (since w (run (call_setActiveTool <$> names) w))
    = switches names w /\
  omap activated_type (since w (run (call_setActiveTool <$> names) w))
    = switches names w.
Proof.
  assert (exists ext,
    the_trace (run (call_setActiveTool <$> names) w) = the_trace w ++ ext /\
    omap broadcast_type ext = switches names w /\
    omap constructed_type ext = switches names w /\
    omap activated_type ext = switches names w) as (ext & Hext & H1 & H2 & H3).
  { revert w. induction names as [| n names IH]; intros w.
    - exists []. split; [by rewrite app_nil_r | done].
    - rewrite fmap_cons, run_cons. cbn [switches].
      destruct (step_setActiveTool_trace n w) as (ext1 & Ht1 & Hb1 & Hc1 & Ha1).
      destruct (IH (step w (call_setActiveTool n))) as (ext2 & Ht2 & Hb2 & Hc2 & Ha2).
      exists (ext1 ++ ext2). rewrite Ht2, Ht1, app_assoc. split; [done |].
      rewrite !omap_app, Hc1, Ha1, Hb1, Hb2, Hc2, Ha2. done. }
  by rewrite (since_app _ _ _ Hext).
Qed.

(* ------------------------------------------------------------------ *)
(** ** After the teardown *)

Lemma lookup_fold_delete (tokens : list nat) (m : gmap nat KeyBinding) (k : nat) :
  fold_left (fun m token => delete token m) tokens m !! k
  = if decide (k ∈ tokens) then None else m !! k.
Proof.
  revert m. induction tokens as [| token tokens IH]; intros m.
  - destruct (decide (k ∈ [])) as [Hin |]; [| done].
    by apply not_elem_of_nil in Hin.
  - cbn [fold_left]. rewrite IH.
    destruct (decide (k ∈ tokens)) as [Hin | Hnin].
    + destruct (decide (k ∈ token :: tokens)) as [| Hn]; [done |].
      exfalso. by apply Hn, list_elem_of_further.
    + destruct (decide (k = token)) as [-> | Hne].
      * rewrite lookup_delete_eq.
        destruct (decide (token ∈ token :: tokens)) as [| Hn]; [done |].
        exfalso. apply Hn, list_elem_of_here.
      * rewrite lookup_delete_ne by done.
        destruct (decide (k ∈ token :: tokens)) as [Hin |]; [| done].
        apply elem_of_cons in Hin as [? | ?]; done.
Qed.

Lemma hotkey_revoked token w :
  keybindings (editor w) !! token = None -> step w (hotkey token) = w.
Proof.
  intros Hn. unfold step, exec, react, keybindingManager_trigger.
  unfold_m. by rewrite Hn.
Qed.

(** X7: [unbindEvent()] revokes the key bindings of the manager's own
    tokens and no others - a revoked hotkey then does nothing at all -,
    empties the token list, and is idempotent: a second call changes
    nothing. *)
Theorem unbindEvent_revokes (token : nat) (w : World) :
  (token ∈ keyBindingToken (this w) ->
   keybindings (editor (exec unbindEvent w)) !! token = None /\
   step (exec unbindEvent w) (hotkey token) = exec unbindEvent w) /\
  (token ∉ keyBindingToken (this w) ->
   keybindings (editor (exec unbindEvent w)) !! token
     = keybindings (editor w) !! token) /\
  keyBindingToken (this (exec unbindEvent w)) = [] /\
  exec unbindEvent (exec unbindEvent w) = exec unbindEvent w.
Proof.
  rewrite !(exec_normal _ _ _ (unbindEvent_effect _)).
  assert (forall k, keybindings (editor (unbound w)) !! k
                    = if decide (k ∈ keyBindingToken (this w)) then None
                      else keybindings (editor w) !! k) as Hlook.
  { intros k. simpl. apply lookup_fold_delete. }
  split; [| split; [| split]].
  - intros Hin. assert (keybindings (editor (unbound w)) !! token = None) as Hn.
    { rewrite Hlook. by rewrite decide_True. }
    split; [exact Hn | by apply hotkey_revoked].
  - intros Hnot. rewrite Hlook. by rewrite decide_False.
  - reflexivity.
  - reflexivity.
Qed.

Lemma unbindEvent_revokes_witness :
  step (exec unbindEvent sample_world) (hotkey 1%nat) = exec unbindEvent sample_world.
Proof.
  destruct (unbindEvent_revokes 1%nat sample_world) as [H _].
  destruct H as [_ H]; [| exact H].
  vm_compute. do 1 apply list_elem_of_further. apply list_elem_of_here.
Defined.

Lemma step_not_listening i w :
  is_detached_input i = true ->
  (forall l, l <> hostEventManager_altToggle -> l <> viewportManager_xOrYChange ->
             listening l w = false) ->
  step w i = w.
Proof.
  intros Hi Hl. destruct i; try discriminate Hi;
    unfold step, exec, react, deliver; unfold_m; by rewrite Hl.
Qed.

(** X8: once the teardown closure of [bindEvent] has run, pointer-down,
    pointer-move, pointer-up, command-change and space-toggle events leave
    the manager exactly as it is: nothing is called, no field changes, no
    deferred body is scheduled. *)
Theorem unbindEvent_detaches (i : Input) (w : World) :
  _unbindEvent (this w) = bindEvent_teardown ->
  is_detached_input i = true ->
  step (exec unbindEvent w) i = exec unbindEvent w.
Proof.
  intros Hu Hi. apply step_not_listening; [done |].
  intros l Ha Hv. by apply unbindEvent_removes.
Qed.

Lemma unbindEvent_detaches_witness :
  step (exec unbindEvent sample_world) (pointerdown (at_ 0 1 1))
  = exec unbindEvent sample_world.
Proof.
  apply (unbindEvent_detaches (pointerdown (at_ 0 1 1)) sample_world);
    reflexivity.
Defined.

(** X9: the teardown does not cancel a deferred pointer-down.  When a
    pointer-down arrives, then [unbindEvent()] is called, and then the
    deferred body runs, the tool still receives [onStart]; as the
    listeners for moves and for the pointer-up are gone, the press it
    opens is never dragged and never ended. *)
Theorem deferred_pointerdown_survives_teardown (t : ITool) (r r' : Readings)
    (e e' e_up : PointerEvent) (w : World) :
  listening canvas_pointerdown w = true ->
  _unbindEvent (this w) = bindEvent_teardown ->
  timers (editor w) = [] ->
  currentTool (this w) = Some t ->
  accepted r e = true ->
  since w (run [pointerdown e; call_unbindEvent; timeout r;
                pointermove r' e'; pointerup e_up] w)
    = [onStart t e] /\
  isPressing (scope (run [pointerdown e; call_unbindEvent; timeout r;
                          pointermove r' e'; pointerup e_up] w)) = true.
Proof.
  intros Hl Hu Htm Ht Hacc.
  assert (step w (pointerdown e) = with_editor (upd_timers [e]) w) as H1.
  { unfold step, exec, react, deliver, handleDown. unfold_m. rewrite Hl.
    unfold with_editor. by rewrite Htm. }
  rewrite !run_cons, H1.
  set (w1 := with_editor (upd_timers [e]) w).
  assert (step w1 call_unbindEvent = exec unbindEvent w1) as H2 by reflexivity.
  rewrite H2.
  assert (step (exec unbindEvent w1) (timeout r)
          = pressed t e (with_editor (upd_timers []) (exec unbindEvent w1))) as H3.
  { apply step_timeout_accepted; try done.
    by rewrite (exec_normal _ _ _ (unbindEvent_effect w1)).
    by rewrite (exec_normal _ _ _ (unbindEvent_effect w1)). }
  rewrite H3.
  set (w3 := pressed t e (with_editor (upd_timers []) (exec unbindEvent w1))).
  assert (forall l, l <> hostEventManager_altToggle -> l <> viewportManager_xOrYChange ->
                    listening l w3 = false) as Hgone.
  { intros l Ha Hv. by apply (unbindEvent_removes l w1). }
  rewrite (step_not_listening (pointermove r' e') w3 eq_refl Hgone).
  rewrite (step_not_listening (pointerup e_up) w3 eq_refl Hgone).
  split; [| done].
  apply since_app. unfold w3, w1, the_trace.
  rewrite (exec_normal _ _ _ (unbindEvent_effect _)). reflexivity.
Qed.

Lemma deferred_pointerdown_survives_teardown_witness :
  since sample_world
    (run [pointerdown (at_ 0 0 0); call_unbindEvent; timeout quiet;
          pointermove quiet (at_ 0 9 9); pointerup (at_ 0 9 9)] sample_world)
  = [onStart sample_select (at_ 0 0 0)].
Proof.
  destruct (deferred_pointerdown_survives_teardown sample_select quiet quiet
              (at_ 0 0 0) (at_ 0 9 9) (at_ 0 9 9) sample_world
              eq_refl eq_refl eq_refl eq_refl eq_refl) as [H _].
  exact H.
Defined.

(* ------------------------------------------------------------------ *)
(** ** [destroy] detaches nothing *)

Lemma exec_deliver l (h : M unit) w :
  listening l w = true -> exec (deliver l h) w = exec h w.
Proof. intros Hl. unfold deliver, exec. unfold_m. by rewrite Hl. Qed.

(** X10: [destroy()] changes nothing but the trace: the deactivated tool
    stays the current tool and every listener stays registered, so a later
    pointer move is dispatched to it, and a later accepted pointer-down
    calls [onStart] on it. *)
Theorem destroy_detaches_nothing (t : ITool) (r : Readings) (e : PointerEvent)
    (w : World) :
  currentTool (this w) = Some t ->
  step w call_destroy
    = with_editor (fun ed => upd_trace (trace ed ++ [onInactive t]) ed) w /\
  (listening window_pointermove w = true ->
   isPressing (scope w) = false ->
   since w (run [call_destroy; pointermove r e] w)
     = [onInactive t; onMoveExcludeDrag t e (canvasElement_is_not (target e))]) /\
  (listening canvas_pointerdown w = true ->
   timers (editor w) = [] ->
   accepted r e = true ->
   since w (run [call_destroy; pointerdown e; timeout r] w)
     = [onInactive t; onStart t e]).
Proof.
  intros Ht.
  assert (step w call_destroy
          = with_editor (fun ed => upd_trace (trace ed ++ [onInactive t]) ed) w) as Hd.
  { unfold step, react. apply exec_normal. by apply destroy_some. }
  split; [exact Hd |]. split.
  - intros Hl Hp. rewrite !run_cons, Hd. apply since_app.
    set (w1 := with_editor (fun ed => upd_trace (trace ed ++ [onInactive t]) ed) w).
    change (run [] (step w1 (pointermove r e)))
      with (exec (deliver window_pointermove (handleMove r e)) w1).
    rewrite (exec_deliver _ _ w1 Hl).
    rewrite (exec_normal _ _ _ (handleMove_hover t r e w1 Ht Hp)).
    unfold the_trace. simpl. by rewrite <- app_assoc.
  - intros Hl Htm Hacc. rewrite !run_cons, Hd.
    set (w1 := with_editor (fun ed => upd_trace (trace ed ++ [onInactive t]) ed) w).
    assert (step w1 (pointerdown e) = with_editor (upd_timers [e]) w1) as H1.
    { unfold step, react. rewrite (exec_deliver _ _ w1 Hl).
      unfold exec, handleDown, modify, with_editor. simpl. by rewrite Htm. }
    rewrite H1.
    rewrite (step_timeout_accepted t r e [] (with_editor (upd_timers [e]) w1)
               eq_refl Hacc Ht).
    apply since_app. unfold the_trace. simpl. by rewrite <- app_assoc.
Qed.

Lemma destroy_detaches_nothing_witness :
  since sample_world (run [call_destroy; pointermove quiet (at_ 0 4 4)] sample_world)
  = [onInactive sample_select; onMoveExcludeDrag sample_select (at_ 0 4 4) false].
Proof.
  destruct (destroy_detaches_nothing sample_select quiet (at_ 0 4 4) sample_world
              eq_refl) as (_ & H & _).
  exact (H eq_refl eq_refl).
Defined.

(* ------------------------------------------------------------------ *)
(** ** Registering twice *)

Lemma two_registrations c c' w :
  exec (registerToolCtor c') (exec (registerToolCtor c) w)
  = registered c' (registered c w).
Proof.
  by rewrite (exec_normal _ _ _ (registerToolCtor_effect c w)),
             (exec_normal _ _ _ (registerToolCtor_effect c' _)).
Qed.

(** X11: registering a second class under a type that is already
    registered replaces the constructor - the last registration wins -
    and warns, but leaves the key binding of the first registration in
    place: both tokens are appended to the manager's token list, the first
    still bound to the first class's binding and the second to the second
    class's, both acting for that type.  Other types keep their
    constructor. *)
Theorem reregistration_replaces (c c' : IToolClassConstructor) (other : string)
    (w : World) :
  static_type c' = static_type c ->
  toolCtorMap (this (exec (registerToolCtor c') (exec (registerToolCtor c) w)))
    !! static_type c = Some c' /\
  console (warn_had_exit (static_type c))
    ∈ since w (exec (registerToolCtor c') (exec (registerToolCtor c) w)) /\
  (exists tok tok',
     keyBindingToken (this (exec (registerToolCtor c') (exec (registerToolCtor c) w)))
       = keyBindingToken (this w) ++ [tok; tok'] /\
     keybindings (editor (exec (registerToolCtor c') (exec (registerToolCtor c) w)))
       !! tok = Some (binding_of c) /\
     keybindings (editor (exec (registerToolCtor c') (exec (registerToolCtor c) w)))
       !! tok' = Some (binding_of c')) /\
  captured_type (binding_of c') = captured_type (binding_of c) /\
  (other <> static_type c ->
   toolCtorMap (this (exec (registerToolCtor c') (exec (registerToolCtor c) w)))
     !! other = toolCtorMap (this w) !! other).
Proof.
  intros Hty. rewrite two_registrations.
  split; [simpl; rewrite Hty; apply lookup_insert_eq |].
  split.
  { rewrite (since_app w _
      (((if bool_decide (is_Some (toolCtorMap (this w) !! static_type c))
         then [console (warn_had_exit (static_type c))] else []) ++
        (if bool_decide (static_hotkey c ∈ hotkeySet (this w))
         then [console (log_same_hotkey (static_hotkey c))] else [])) ++
       [console (warn_had_exit (static_type c))] ++
       (if bool_decide (static_hotkey c' ∈ {[static_hotkey c]} ∪ hotkeySet (this w))
        then [console (log_same_hotkey (static_hotkey c'))] else []))).
    - apply elem_of_app. right. apply list_elem_of_here.
    - unfold the_trace. simpl. rewrite Hty.
      rewrite (bool_decide_eq_true_2
                 (is_Some (<[static_type c := c]> (toolCtorMap (this w)) !! static_type c)))
        by (rewrite lookup_insert_eq; by eexists).
      by rewrite <- !app_assoc. }
  split.
  { exists (next_token (editor w)), (S (next_token (editor w))).
    split; [simpl; by rewrite <- app_assoc |].
    split; [simpl; rewrite lookup_insert_ne by lia; apply lookup_insert_eq |].
    simpl; apply lookup_insert_eq. }
  split; [simpl; by rewrite Hty |].
  intros Hne. simpl. rewrite Hty, !lookup_insert_ne by done. done.
Qed.

Lemma reregistration_replaces_witness :
  toolCtorMap
    (this (exec (registerToolCtor (sample_variant "select" "s" "crosshair"))
             (exec (registerToolCtor (sample_class "select" "v")) blank_world)))
    !! "select" = Some (sample_variant "select" "s" "crosshair").
Proof.
  destruct (reregistration_replaces (sample_class "select" "v")
              (sample_variant "select" "s" "crosshair") "other" blank_world eq_refl)
    as [H _].
  exact H.
Defined.

(** X12: two classes registered with the same hotkey both get a key
    binding: both tokens are appended to the token list, each bound to its
    class's binding, the two having the same key code and each acting for
    its own type; the second registration logs the collision.  The test
    for the log is on the hotkey string as written: a hotkey that is
    another string and not yet in the hotkey set is not reported. *)
Theorem same_hotkey_both_bound (c c' : IToolClassConstructor) (w : World) :
  (static_hotkey c' = static_hotkey c ->
   (exists tok tok',
      keyBindingToken (this (exec (registerToolCtor c') (exec (registerToolCtor c) w)))
        = keyBindingToken (this w) ++ [tok; tok'] /\
      keybindings (editor (exec (registerToolCtor c') (exec (registerToolCtor c) w)))
        !! tok = Some (binding_of c) /\
      keybindings (editor (exec (registerToolCtor c') (exec (registerToolCtor c) w)))
        !! tok' = Some (binding_of c')) /\
   keyCode (binding_of c') = keyCode (binding_of c) /\
   captured_type (binding_of c) = static_type c /\
   captured_type (binding_of c') = static_type c' /\
   console (log_same_hotkey (static_hotkey c))
     ∈ since w (exec (registerToolCtor c') (exec (registerToolCtor c) w))) /\
  (static_hotkey c' <> static_hotkey c ->
   static_hotkey c' ∉ hotkeySet (this w) ->
   console (log_same_hotkey (static_hotkey c'))
     ∉ since (exec (registerToolCtor c) w)
         (exec (registerToolCtor c') (exec (registerToolCtor c) w))).
Proof.
  rewrite two_registrations. split.
  - intros Hhk.
    split.
    { exists (next_token (editor w)), (S (next_token (editor w))).
      split; [simpl; by rewrite <- app_assoc |].
      split; [simpl; rewrite lookup_insert_ne by lia; apply lookup_insert_eq |].
      simpl; apply lookup_insert_eq. }
    split; [unfold binding_of; simpl; by rewrite Hhk |].
    split; [done |]. split; [done |].
    rewrite (since_app w _
      (((if bool_decide (is_Some (toolCtorMap (this w) !! static_type c))
         then [console (warn_had_exit (static_type c))] else []) ++
        (if bool_decide (static_hotkey c ∈ hotkeySet (this w))
         then [console (log_same_hotkey (static_hotkey c))] else [])) ++
       (if bool_decide (is_Some (<[static_type c := c]> (toolCtorMap (this w))
                                   !! static_type c'))
        then [console (warn_had_exit (static_type c'))] else []) ++
       [console (log_same_hotkey (static_hotkey c))])).
    + rewrite !elem_of_app. right. right. apply list_elem_of_here.
    + unfold the_trace. simpl. rewrite Hhk.
      rewrite (bool_decide_eq_true_2
                 (static_hotkey c ∈ ({[static_hotkey c]} ∪ hotkeySet (this w) : gset string)))
        by (apply elem_of_union; left; by apply elem_of_singleton).
      by rewrite <- !app_assoc.
  - intros Hne Hnot.
    rewrite (exec_normal _ _ _ (registerToolCtor_effect c w)).
    rewrite (since_app (registered c w) _
      ((if bool_decide (is_Some (<[static_type c := c]> (toolCtorMap (this w))
                                   !! static_type c'))
        then [console (warn_had_exit (static_type c'))] else []) ++ [])).
    + rewrite app_nil_r. case_bool_decide; [| by apply not_elem_of_nil].
      intros Hin. apply list_elem_of_singleton in Hin. discriminate Hin.
    + unfold the_trace. simpl.
      rewrite (bool_decide_eq_false_2
                 (static_hotkey c' ∈ ({[static_hotkey c]} ∪ hotkeySet (this w) : gset string)))
        by (rewrite elem_of_union, elem_of_singleton; tauto).
      done.
Qed.

Lemma same_hotkey_both_bound_witness :
  keyCode (binding_of (sample_class "pathSelect" "v"))
    = keyCode (binding_of (sample_class "select" "v")) /\
  console (log_same_hotkey "v")
    ∈ since blank_world
        (exec (registerToolCtor (sample_class "pathSelect" "v"))
           (exec (registerToolCtor (sample_class "select" "v")) blank_world)).
Proof.
  destruct (same_hotkey_both_bound (sample_class "select" "v")
              (sample_class "pathSelect" "v") blank_world) as [H _].
  destruct (H eq_refl) as (_ & Hk & _ & _ & Hlog).
  split; [exact Hk | exact Hlog].
Defined.

(* ------------------------------------------------------------------ *)
(** ** Notifications and the pointer position *)



(** X14: [handleMove] stores the pointer position before anything else:
    after it the position is the one of the event in every state, also
    when it throws for want of a tool.  No other input changes it. *)
Theorem pointer_position_tracking (r : Readings) (e : PointerEvent) (i : Input)
    (w : World) :
  currViewportPoint (this (exec (handleMove r e) w)) = Some (getCursorXY r) /\
  (is_pointermove i = false ->
   currViewportPoint (this (step w i)) = currViewportPoint (this w)).
Proof.
  split.
  - destruct w as [m s ed]; destruct m, s, ed.
    unfold exec, handleMove. unfold_m. simpl.
    repeat case_match; simplify_eq/=; done.
  - intros Hi. destruct i; try discriminate Hi;
      try (unfold step, exec, react; by rewrite unbindEvent_effect).
    all: destruct w as [m s ed]; destruct m, s, ed; simpl in *.
    all: unfold_ops; unfold_m; simpl.
    all: repeat case_match; simplify_eq/=; done.
Qed.

Lemma pointer_position_tracking_witness :
  currViewportPoint (this (step sample_world (hotkey 1%nat)))
  = currViewportPoint (this sample_world).
Proof.
  destruct (pointer_position_tracking quiet (at_ 0 0 0) (hotkey 1%nat) sample_world)
    as [_ H].
  exact (H eq_refl).
Defined.

(* ------------------------------------------------------------------ *)
(** ** At most one active tool, whatever the inputs *)

Lemma step_keeps_tool w i :
  may_switch i = false ->
  exists ext,
    the_trace (step w i) = the_trace w ++ ext /\
    currentTool (this (step w i)) = currentTool (this w) /\
    forallb (fun c => negb (is_switch_call c)) ext = true.
Proof.
  intros Hi. destruct i; try discriminate Hi;
    try (unfold step, exec, react; rewrite unbindEvent_effect;
         exists []; split; [by rewrite app_nil_r | done]).
  all: destruct w as [m s ed]; destruct m, s, ed; simpl in *.
  all: unfold_ops; unfold_m; simpl.
  all: repeat case_match; simplify_eq/=.
  all: rewrite <- ?app_assoc.
  all: first [ eexists; split; [reflexivity |]; split; [reflexivity | reflexivity]
             | exists []; split; [by rewrite app_nil_r |]; split; reflexivity ].
Qed.

Lemma at_most_current_ext w w' tr :
  the_trace w' = the_trace w ++ tr ->
  currentTool (this w') = currentTool (this w) ->
  forallb (fun c => negb (is_switch_call c)) tr = true ->
  at_most_current w -> at_most_current w'.
Proof.
  intros Htr Hcur Hall [Hs Ha]. unfold at_most_current, active_tools in *.
  rewrite Htr, Hcur, single_active_app, fold_left_app, Hs. simpl.
  rewrite (fold_activity_others _ tr), (single_active_others _ tr) by done.
  split; [| exact Ha].
  destruct Ha as [-> | ->]; [done |].
  by destruct (currentTool (this w)).
Qed.

Lemma at_most_current_switched c w :
  at_most_current w -> at_most_current (switched c w).
Proof.
  intros [Hs Ha]. unfold at_most_current, the_trace, active_tools in *. simpl.
  rewrite single_active_app, fold_left_app, Hs.
  destruct (currentTool (this w)) as [p |]; simpl.
  - assert (filter (fun i : nat => i ≠ ident p) [ident p] = []) as Hf.
    { rewrite filter_cons, decide_False by (intros H; by apply H). done. }
    destruct Ha as [-> | ->]; simpl; rewrite ?Hf; split; try done; by right.
  - destruct Ha as [-> | ->]; simpl; split; try done; by right.
Qed.

Lemma at_most_current_setActiveTool toolName w :
  at_most_current w -> at_most_current (step w (call_setActiveTool toolName)).
Proof.
  intros Hc. destruct (passes toolName w) eqn:Hp.
  - destruct (step_setActiveTool_passes _ _ Hp) as (c & _ & ->).
    by apply at_most_current_switched.
  - destruct (passes_false _ _ Hp) as (tr & Heq & Htr).
    unfold step, react. rewrite Heq.
    by apply (at_most_current_ext w _ tr).
Qed.

Lemma at_most_current_step w i :
  at_most_current w -> at_most_current (step w i).
Proof.
  intros Hc. destruct (may_switch i) eqn:Hi.
  - destruct i; try discriminate Hi.
    + destruct (keybindings (editor w) !! token) as [b |] eqn:Hb.
      * destruct (includes (enableToolTypes (this w)) (captured_type b)) eqn:He.
        -- rewrite (hotkey_enabled token b w Hb He).
           by apply at_most_current_setActiveTool.
        -- by rewrite (hotkey_disabled token b w Hb He).
      * by rewrite (hotkey_revoked token w Hb).
    + by apply at_most_current_setActiveTool.
    + destruct (currentTool (this w)) as [t |] eqn:Ht.
      * unfold step, react. rewrite (exec_normal _ _ _ (destroy_some t w Ht)).
        destruct Hc as [Hs Ha].
        unfold at_most_current, the_trace, active_tools in *. simpl.
        rewrite single_active_app, fold_left_app, Hs.
        assert (filter (fun i : nat => i ≠ ident t) [ident t] = []) as Hf.
        { rewrite filter_cons, decide_False by (intros H; by apply H). done. }
        destruct Ha as [-> | ->]; simpl; rewrite ?Ht; simpl; rewrite ?Hf;
          split; try done; by left.
      * assert (step w call_destroy = w) as ->; [| done].
        unfold step, exec, react, destroy. unfold_m. by rewrite Ht.
  - destruct (step_keeps_tool w i Hi) as (ext & Ht & Hcur & Hno).
    by apply (at_most_current_ext w _ ext).
Qed.

Lemma at_most_current_run inputs w :
  at_most_current w -> at_most_current (run inputs w).
Proof.
  revert w. induction inputs as [| i inputs IH]; intros w Hc; [done |].
  rewrite run_cons. by apply IH, at_most_current_step.
Qed.

(** X15: on a manager constructed over an editor in whose trace no tool
    is active, at every moment of the trace at most one tool object is
    active (has received [onActive] and not yet [onInactive]), whatever
    the inputs - pointer events, hotkeys, [setActiveTool], [destroy],
    [unbindEvent] - and the object active at the end, if any, is the
    current tool. *)
Theorem at_most_one_active_always (T : ToolClasses) (ed : Editor)
    (inputs : list Input) :
  single_active [] (trace ed) = true ->
  active_tools (trace ed) = [] ->
  single_active [] (the_trace (run inputs (snd (new_ToolManager T ed)))) = true /\
  (active_tools (the_trace (run inputs (snd (new_ToolManager T ed)))) = [] \/
   active_tools (the_trace (run inputs (snd (new_ToolManager T ed))))
     = option_list (ident <$> currentTool (this (run inputs (snd (new_ToolManager T ed)))))).
Proof.
  intros Hs Ha. apply at_most_current_run.
  destruct (new_ToolManager_consistent T ed Hs Ha) as [H1 H2].
  split; [done | by right].
Qed.

Lemma at_most_one_active_always_witness :
  single_active []
    (the_trace (run [hotkey 1%nat; call_destroy; call_setActiveTool "pen";
                     pointerdown (at_ 0 0 0); timeout quiet; call_destroy]
                  (snd (new_ToolManager sample_tools empty_editor)))) = true.
Proof.
  destruct (at_most_one_active_always sample_tools empty_editor
              [hotkey 1%nat; call_destroy; call_setActiveTool "pen";
               pointerdown (at_ 0 0 0); timeout quiet; call_destroy]
              eq_refl eq_refl) as [H _].
  exact H.
Defined.

(* ------------------------------------------------------------------ *)
(** ** The key bindings of the constructor *)

Lemma registered_binding_lookup c w tok :
  keybindings (editor (registered c w)) !! tok
  = if decide (next_token (editor w) = tok) then Some (binding_of c)
    else keybindings (editor w) !! tok.
Proof. simpl. apply lookup_insert. Qed.

Lemma register_list_old l w tok :
  (tok < next_token (editor w))%nat ->
  keybindings (editor (register_list l w)) !! tok = keybindings (editor w) !! tok /\
  (next_token (editor w) <= next_token (editor (register_list l w)))%nat.
Proof.
  revert w. induction l as [| c l IH]; intros w Hlt; [done |].
  change (register_list (c :: l) w) with (register_list l (registered c w)).
  destruct (IH (registered c w)) as [H1 H2]; [simpl; lia |].
  rewrite H1, registered_binding_lookup.
  split; [| simpl in H2; lia]. rewrite decide_False by lia. done.
Qed.

Lemma register_list_binding l w k c :
  l !! k = Some c ->
  keybindings (editor (register_list l w)) !! (next_token (editor w) + k)%nat
  = Some (binding_of c).
Proof.
  revert w k. induction l as [| c0 l IH]; intros w k Hk; [done |].
  change (register_list (c0 :: l) w) with (register_list l (registered c0 w)).
  destruct k as [| k].
  - injection Hk as <-. rewrite Nat.add_0_r.
    destruct (register_list_old l (registered c0 w) (next_token (editor w))) as [-> _];
      [simpl; lia |].
    rewrite registered_binding_lookup. by rewrite decide_True.
  - replace (next_token (editor w) + S k)%nat
      with (next_token (editor (registered c0 w)) + k)%nat by (simpl; lia).
    by apply IH.
Qed.

Lemma register_all_list T w : register_all T w = register_list (tool_classes T) w.
Proof. unfold register_all, register_list, tool_classes. reflexivity. Qed.

Lemma new_ToolManager_keybindings T ed :
  keybindings (editor (snd (new_ToolManager T ed)))
  = keybindings (editor (register_list (tool_classes T) (fresh_world ed))).
Proof.
  destruct (new_ToolManager_shape T ed) as (c & w8 & Hw8 & _ & _ & ->).
  rewrite <- register_all_list, <- Hw8. reflexivity.
Qed.

Lemma new_ToolManager_tokens T ed :
  keyBindingToken (this (snd (new_ToolManager T ed))) = seq (next_token ed) 8.
Proof.
  destruct (new_ToolManager_shape T ed)
    as (c & w8 & _ & (_ & _ & _ & _ & _ & Hk & _) & _ & ->).
  exact Hk.
Qed.

(** X16: the constructor registers one key binding per tool class, in
    the order of registration: the [k]-th token of the manager's token
    list is bound to the binding of the [k]-th class, whose key code is
    [`Key${hotkey.toUpperCase()}`] for the class's hotkey and which acts
    for the class's type.  A class gets its binding whether or not its
    type is enabled. *)
Theorem constructor_key_bindings (T : ToolClasses) (ed : Editor) (k : nat)
    (c : IToolClassConstructor) :
  tool_classes T !! k = Some c ->
  exists tok,
    keyBindingToken (this (snd (new_ToolManager T ed))) !! k = Some tok /\
    keybindings (editor (snd (new_ToolManager T ed))) !! tok
      = Some {| keyCode := Key_toUpperCase (static_hotkey c);
                actionName := static_type c;
                captured_type := static_type c |}.
Proof.
  intros Hk. exists (next_token ed + k)%nat. split.
  - rewrite new_ToolManager_tokens. apply lookup_seq_lt.
    by apply lookup_lt_Some in Hk.
  - rewrite new_ToolManager_keybindings.
    by apply (register_list_binding _ (fresh_world ed)).
Qed.

Lemma constructor_key_bindings_witness :
  exists tok,
    keyBindingToken (this (snd (new_ToolManager sample_tools empty_editor))) !! 6%nat
      = Some tok /\
    keybindings (editor (snd (new_ToolManager sample_tools empty_editor))) !! tok
      = Some {| keyCode := Key_toUpperCase "v"; actionName := "pathSelect";
                captured_type := "pathSelect" |}.
Proof.
  exact (constructor_key_bindings sample_tools empty_editor 6
           (PathSelectTool sample_tools) eq_refl).
Defined.



(* ------------------------------------------------------------------ *)
(** ** The switch gate *)

(** X18: only a pointer move closes the switch gate and only a pointer-up
    opens it.  Every other input leaves the gate as it is, and [handleUp]
    opens it in every state: for a press not begun with the primary
    button, and also when it throws for want of a tool. *)
Theorem gate_changes (e : PointerEvent) (i : Input) (w : World) :
  enableSwitchTool (this (exec (handleUp e) w)) = true /\
  (is_pointermove i = false -> is_pointerup i = false ->
   enableSwitchTool (this (step w i)) = enableSwitchTool (this w)).
Proof.
  split.
  - destruct w as [m s ed]; destruct m, s, ed.
    unfold exec, handleUp. unfold_m. simpl.
    repeat case_match; simplify_eq/=; done.
  - intros Hm Hu. destruct i; try discriminate Hm; try discriminate Hu;
      try (unfold step, exec, react; by rewrite unbindEvent_effect).
    all: destruct w as [m s ed]; destruct m, s, ed; simpl in *.
    all: unfold_ops; unfold_m; simpl.
    all: repeat case_match; simplify_eq/=; done.
Qed.

Lemma gate_changes_witness :
  enableSwitchTool
    (this (step (run [pointerdown (at_ 0 0 0); timeout quiet;
                      pointermove quiet (at_ 0 9 9)] sample_world)
             (timeout quiet)))
  = enableSwitchTool
      (this (run [pointerdown (at_ 0 0 0); timeout quiet;
                  pointermove quiet (at_ 0 9 9)] sample_world)).
Proof.
  destruct (gate_changes (at_ 0 0 0) (timeout quiet)
              (run [pointerdown (at_ 0 0 0); timeout quiet;
                    pointermove quiet (at_ 0 9 9)] sample_world)) as [_ H].
  exact (H eq_refl eq_refl).
Defined.

(* ------------------------------------------------------------------ *)
(** ** Disabling the active tool *)

(** X19: [setEnableHotKeyTools] never deactivates or switches the tool:
    the tool stays active when its type is left out of the new set, and
    the only call made is the [changeEnableTools] broadcast.  Asking for
    that type then does nothing, silently, as it is the active one; but
    after a switch to another tool it cannot be activated again: the
    request is refused with the warning. *)
Theorem disabling_the_active_tool (t : ITool) (toolTypes : list string)
    (other : string) (c : IToolClassConstructor) (w : World) :
  currentTool (this w) = Some t ->
  includes toolTypes (type t) = false ->
  currentTool (this (step w (call_setEnableHotKeyTools toolTypes))) = Some t /\
  since w (step w (call_setEnableHotKeyTools toolTypes))
    = [emit (changeEnableTools toolTypes)] /\
  getEnableTools (step w (call_setEnableHotKeyTools toolTypes)) = toolTypes /\
  step (step w (call_setEnableHotKeyTools toolTypes)) (call_setActiveTool (type t))
    = step w (call_setEnableHotKeyTools toolTypes) /\
  (passes other (step w (call_setEnableHotKeyTools toolTypes)) = true ->
   toolCtorMap (this w) !! other = Some c ->
   instance_type c <> type t ->
   getActiveToolName
     (run [call_setEnableHotKeyTools toolTypes; call_setActiveTool other;
           call_setActiveTool (type t)] w) = Some (instance_type c) /\
   since (run [call_setEnableHotKeyTools toolTypes; call_setActiveTool other] w)
     (run [call_setEnableHotKeyTools toolTypes; call_setActiveTool other;
           call_setActiveTool (type t)] w)
     = [console (warn_not_enable (type t))]).
Proof.
  intros Ht Hout.
  set (w1 := step w (call_setEnableHotKeyTools toolTypes)).
  assert (currentTool (this w1) = Some t) as Ht1 by exact Ht.
  split; [done |].
  split; [by apply since_app |]. split; [done |].
  split.
  { unfold step, react. apply exec_normal, setActiveTool_already_active.
    unfold is_active, getActiveToolName. rewrite Ht1. simpl. apply String.eqb_refl. }
  intros Hp Hc Hne. rewrite !run_cons. fold w1.
  destruct (step_setActiveTool_passes _ _ Hp) as (c' & Hc' & Hsw).
  assert (c' = c) as -> by (change (toolCtorMap (this w1)) with (toolCtorMap (this w)) in Hc';
                            congruence).
  rewrite Hsw.
  assert (setActiveTool (type t) (switched c w1)
          = (Normal tt, said (warn_not_enable (type t)) (switched c w1))) as Heq.
  { apply setActiveTool_not_enabled.
    - change (enableSwitchTool (this w1) = true). unfold passes in Hp.
      destruct (enableSwitchTool (this w1)); [done | simpl in Hp; discriminate].
    - unfold is_active, getActiveToolName. simpl.
      apply String.eqb_neq. exact Hne.
    - exact Hout. }
  change (run [] (step (switched c w1) (call_setActiveTool (type t))))
    with (exec (setActiveTool (type t)) (switched c w1)).
  rewrite (exec_normal _ _ _ Heq). split; [done |]. by apply since_app.
Qed.

Lemma disabling_the_active_tool_witness :
  getActiveToolName
    (run [call_setEnableHotKeyTools ["drawRect"]; call_setActiveTool "drawRect";
          call_setActiveTool "select"] sample_world) = Some "drawRect" /\
  since (run [call_setEnableHotKeyTools ["drawRect"]; call_setActiveTool "drawRect"]
           sample_world)
    (run [call_setEnableHotKeyTools ["drawRect"]; call_setActiveTool "drawRect";
          call_setActiveTool "select"] sample_world)
    = [console (warn_not_enable "select")].
Proof.
  destruct (disabling_the_active_tool sample_select ["drawRect"] "drawRect"
              (DrawRectTool sample_tools) sample_world eq_refl eq_refl)
    as (_ & _ & _ & _ & H).
  exact (H eq_refl eq_refl ltac:(discriminate)).
Defined.

